(** * Kubeconfig resolution of lib/promscrape/discovery/kubernetes/kubeconfig.go

    A shallow embedding of the kubeconfig data model, of [AuthInfo.validate]
    and of [buildConfig], followed by the properties of the resolution
    that the specification states.

    Conventions of the embedding:
    - a Go [string] is a [string]; [len(s) == 0] is [String.length s =? 0];
    - a Go pointer [*T] that the code only compares with [nil] and reads
      through is an [option T] ([None] is [nil]);
    - a Go [map[string]*T] is a [gmap string (option T)]; indexing a map at
      a missing key gives the zero value of the element type, here [nil];
    - a Go [[]byte] is a [list byte], a [[]string] a [list string];
    - a Go [error] result is a sum or an option of an error type with one
      constructor per [fmt.Errorf] call of the source. *)

From Stdlib Require Import Strings.String Strings.Ascii Strings.Byte NArith List Bool Arith Lia.
From stdpp Require Import gmap strings list fin_maps.

Local Open Scope string_scope.
Local Open Scope list_scope.

(** ** Go's [encoding/base64], [StdEncoding.DecodeString]

    The decoder belongs to Go's standard library.  It is modelled after
    [Encoding.Decode] and [Encoding.decodeQuantum] for the padded, non-strict
    standard alphabet of RFC 4648: carriage returns and line feeds are
    skipped, the padding character is [=], and a malformed input is reported
    as [CorruptInputError] with the offset of the offending byte.  Go returns
    the bytes decoded so far together with the error. *)

Module base64.

Inductive CorruptInputError := CorruptInput (offset : nat).

(** [decodeMap] of the standard alphabet: [A-Z], [a-z], [0-9], [+], [/]. *)
Definition decodeMap (c : ascii) : option N :=
  let n := N_of_ascii c in
  if ((65 <=? n) && (n <=? 90))%N then Some (n - 65)%N
  else if ((97 <=? n) && (n <=? 122))%N then Some (n - 97 + 26)%N
  else if ((48 <=? n) && (n <=? 57))%N then Some (n - 48 + 52)%N
  else if (n =? 43)%N then Some 62%N
  else if (n =? 47)%N then Some 63%N
  else None.

Definition isNewline (c : ascii) : bool :=
  let n := N_of_ascii c in ((n =? 10) || (n =? 13))%N.

Definition isPad (c : ascii) : bool := (N_of_ascii c =? 61)%N.

Definition byteOfN (n : N) : byte :=
  byte_of_ascii (ascii_of_N (N.land n 255)).

(** The conversion at the end of [decodeQuantum]: [dlen] six-bit values
    (missing ones are zero) give [dlen - 1] bytes. *)
Definition quantumBytes (dbuf : list N) : list byte :=
  let d i := nth i dbuf 0%N in
  let val := N.lor (N.lor (N.shiftl (d 0) 18) (N.shiftl (d 1) 12))
                   (N.lor (N.shiftl (d 2) 6) (d 3)) in
  take (Nat.pred (List.length dbuf))
       [byteOfN (N.shiftr val 16); byteOfN (N.shiftr val 8); byteOfN val].

(** [for si < len(src) && (src[si] == '\n' || src[si] == '\r') { si++ }] *)
Fixpoint skipNewlines (src : list ascii) (si : nat) : list ascii * nat :=
  match src with
  | c :: rest => if isNewline c then skipNewlines rest (S si) else (src, si)
  | [] => ([], si)
  end.

(** After the padding of a quantum: newlines are skipped and anything
    left is trailing garbage. *)
Definition afterPadding (src : list ascii) (si : nat) : option CorruptInputError :=
  match skipNewlines src si with
  | ([], _) => None
  | (_ :: _, si') => Some (CorruptInput si')
  end.

(** The loop of [Decode] around [decodeQuantum]: [si] is the offset of the
    head of [src] in the input, [dbuf] the six-bit values of the current
    quantum ([j] of the source is its length). *)
Fixpoint decodeLoop (src : list ascii) (si : nat) (dbuf : list N)
  : list byte * option CorruptInputError :=
  let j := List.length dbuf in
  match src with
  | [] =>
      if (j =? 0)%nat then ([], None) else ([], Some (CorruptInput (si - j)))
  | c :: rest =>
      let si := S si in
      match decodeMap c with
      | Some out =>
          if (j =? 3)%nat then
            let '(bs, err) := decodeLoop rest si [] in
            (quantumBytes (dbuf ++ [out]) ++ bs, err)
          else decodeLoop rest si (dbuf ++ [out])
      | None =>
          if isNewline c then decodeLoop rest si dbuf
          else if negb (isPad c) then ([], Some (CorruptInput (si - 1)))
          else
            match j with
            | 0 | 1 => ([], Some (CorruptInput (si - 1)))
            | 2 =>
                match skipNewlines rest si with
                | ([], si2) => ([], Some (CorruptInput si2))
                | (c2 :: rest2, si2) =>
                    if negb (isPad c2) then ([], Some (CorruptInput (si2 - 1)))
                    else (quantumBytes dbuf, afterPadding rest2 (S si2))
                end
            | _ => (quantumBytes dbuf, afterPadding rest si)
            end
      end
  end.

Definition DecodeString (s : string) : list byte * option CorruptInputError :=
  decodeLoop (list_ascii_of_string s) 0 [].

End base64.

(** ** External types of the repository

    [lib/promauth] and [lib/proxy] are other packages of the repository;
    [buildConfig] only fills their structures in. *)

Module proxy.
(** Modelled from the spec: [proxy.URL] is declared in [lib/proxy]; the
    resolver carries the cluster's "proxy URL reference verbatim", so a
    URL is kept as the text it was given as. *)
Record URL := { text : string }.
End proxy.

Module promauth.

(** Modelled from the spec: [promauth.Secret] and [promauth.NewSecret] are
    declared in [lib/promauth]; the password is "held in an opaque
    secret-like wrapper" that exposes the value on explicit request. *)
Record Secret := NewSecret { value : string }.

(** Modelled from the spec: [promauth.BasicAuthConfig], the "basic-auth
    pair", a username and a password; the field names are the ones
    [buildConfig] assigns. *)
Record BasicAuthConfig := {
  Username : string;
  Password : Secret
}.

(** Modelled from the spec: [promauth.TLSConfig], the "TLS material
    bundle (CA bytes, server-name override, insecure flag, client cert/key
    bytes or paths)"; the field names are the ones [buildConfig] assigns. *)
Record TLSConfig := {
  CA : list byte;
  CAFile : string;
  Cert : list byte;
  CertFile : string;
  Key : list byte;
  KeyFile : string;
  ServerName : string;
  InsecureSkipVerify : bool
}.

(** Assignments to one field of a [TLSConfig]. *)
Definition set_CA (v : list byte) (t : TLSConfig) : TLSConfig :=
  {| CA := v; CAFile := CAFile t; Cert := Cert t; CertFile := CertFile t;
     Key := Key t; KeyFile := KeyFile t; ServerName := ServerName t;
     InsecureSkipVerify := InsecureSkipVerify t |}.
Definition set_Cert (v : list byte) (t : TLSConfig) : TLSConfig :=
  {| CA := CA t; CAFile := CAFile t; Cert := v; CertFile := CertFile t;
     Key := Key t; KeyFile := KeyFile t; ServerName := ServerName t;
     InsecureSkipVerify := InsecureSkipVerify t |}.
Definition set_CertFile (v : string) (t : TLSConfig) : TLSConfig :=
  {| CA := CA t; CAFile := CAFile t; Cert := Cert t; CertFile := v;
     Key := Key t; KeyFile := KeyFile t; ServerName := ServerName t;
     InsecureSkipVerify := InsecureSkipVerify t |}.
Definition set_Key (v : list byte) (t : TLSConfig) : TLSConfig :=
  {| CA := CA t; CAFile := CAFile t; Cert := Cert t; CertFile := CertFile t;
     Key := v; KeyFile := KeyFile t; ServerName := ServerName t;
     InsecureSkipVerify := InsecureSkipVerify t |}.
Definition set_KeyFile (v : string) (t : TLSConfig) : TLSConfig :=
  {| CA := CA t; CAFile := CAFile t; Cert := Cert t; CertFile := CertFile t;
     Key := Key t; KeyFile := v; ServerName := ServerName t;
     InsecureSkipVerify := InsecureSkipVerify t |}.

End promauth.

(** ** Basic operations and the validator's errors *)

(** [len(s)] of a Go string. *)
Definition len (s : string) : nat := String.length s.

(** [p == nil] for a pointer. *)
Definition isNil {A : Type} (p : option A) : bool :=
  match p with
  | None => true
  | Some _ => false
  end.

(** The two kinds of error of [AuthInfo.validate]: the [errContext] format
    applied to a field name, and the username/password message. *)
Inductive validateError :=
  | UnsupportedAuthField (field : string)
  | InvalidCredentials.

(** ** The config model (kubeconfig.go, lines 20-151) *)

Module Cluster.
Record t := {
  Server : string;
  TLSServerName : string;
  InsecureSkipTLSVerify : bool;
  CertificateAuthority : string;
  CertificateAuthorityData : string;
  ProxyURL : option proxy.URL
}.
End Cluster.

Module ExecEnvVar.
Record t := {
  Name : string;
  Value : string
}.
End ExecEnvVar.

Module ExecConfig.
Record t := {
  Command : string;
  Args : list string;
  Env : list ExecEnvVar.t;
  APIVersion : string;
  InstallHint : string;
  ProvideClusterInfo : bool;
  InteractiveMode : string
}.
End ExecConfig.

Module AuthInfo.
Record t := {
  ClientCertificate : string;
  ClientCertificateData : string;
  ClientKey : string;
  ClientKeyData : string;
  Exec : option ExecConfig.t;
  Token : string;
  TokenFile : string;
  Impersonate : string;
  ImpersonateUID : string;
  ImpersonateGroups : list string;
  ImpersonateUserExtra : list string;
  Username : string;
  Password : string
}.

(** [func (au *AuthInfo) validate() error] (lines 68-89). *)
Definition validate (au : t) : option validateError :=
  if negb (isNil (Exec au)) then
    Some (UnsupportedAuthField "exec")
  else if (0 <? len (ImpersonateUID au))%nat then
    Some (UnsupportedAuthField "act-as-uid")
  else if (0 <? len (Impersonate au))%nat then
    Some (UnsupportedAuthField "act-as")
  else if (0 <? List.length (ImpersonateGroups au))%nat then
    Some (UnsupportedAuthField "act-as-groups")
  else if (0 <? List.length (ImpersonateUserExtra au))%nat then
    Some (UnsupportedAuthField "act-as-user-extra")
  else if (0 <? len (Password au))%nat
          && (len (Username au) =? 0)%nat then
    Some InvalidCredentials
  else None.
End AuthInfo.

Module Context.
Record t := {
  Cluster : string;
  AuthInfo : string
}.
End Context.

(** The three anonymous element structs of [Config]. *)
Module ClustersItem.
Record t := {
  Name : string;
  Cluster : option Cluster.t
}.
End ClustersItem.

Module AuthInfosItem.
Record t := {
  Name : string;
  AuthInfo : option AuthInfo.t
}.
End AuthInfosItem.

Module ContextsItem.
Record t := {
  Name : string;
  Context : option Context.t
}.
End ContextsItem.

Module Config.
Record t := {
  Kind : string;
  APIVersion : string;
  Clusters : list ClustersItem.t;
  AuthInfos : list AuthInfosItem.t;
  Contexts : list ContextsItem.t;
  CurrentContext : string
}.
End Config.

Module kubeConfig.
Record t := {
  basicAuth : option promauth.BasicAuthConfig;
  server : string;
  token : string;
  tokenFile : string;
  tlsConfig : option promauth.TLSConfig;
  proxyURL : option proxy.URL
}.
End kubeConfig.

(** ** Errors *)

(** The base64 field a decoding error message names. *)
Inductive base64Field :=
  | CertificateAuthorityDataField
  | ClientCertificateDataField
  | ClientKeyDataField.

(** The errors of the resolution, one per [fmt.Errorf] of lines 164-261,
    with the arguments of the format. *)
Inductive buildError :=
  | ContextNotFound (contextName : string)
  | ClusterNotFound (clusterInfoName : string)
  | EmptyServerAddress (contextName : string)
  | AuthInfoNotFound (authInfoName : string)
  | Base64DecodeError (field : base64Field) (quoted : string)
                      (err : base64.CorruptInputError)
  | InvalidAuthConfig (contextName : string) (err : validateError).

(** ** Resolution with a log of the validator's invocations

    The resolution either fails with a [buildError] or gives a value; the
    log lists, in order, the users [validate] was called on. *)

Definition M (A : Type) : Type := list AuthInfo.t * (buildError + A).

Definition ret {A : Type} (a : A) : M A := ([], inr a).

Definition fail {A : Type} (e : buildError) : M A := ([], inl e).

Definition bind {A B : Type} (m : M A) (k : A -> M B) : M B :=
  match m with
  | (log, inl e) => (log, inl e)
  | (log, inr a) => let '(log', r) := k a in (log ++ log', r)
  end.

Declare Scope build_scope.
Delimit Scope build_scope with build.

Notation "x <- m ;; k" := (bind m (fun x => k))
  (at level 20, m at level 99, k at level 200, only parsing) : build_scope.
Notation "' x <- m ;; k" := (bind m (fun x => k))
  (at level 20, x pattern, m at level 99, k at level 200, only parsing)
  : build_scope.
Notation "m ;;; k" := (bind m (fun _ => k))
  (at level 100, k at level 200, only parsing, right associativity)
  : build_scope.

(** [if p == nil { return nil, e }] followed by uses of [*p]. *)
Definition orFail {A : Type} (p : option A) (e : buildError) : M A :=
  match p with
  | Some a => ret a
  | None => fail e
  end.

(** [if b { return nil, e }]. *)
Definition failIf (b : bool) (e : buildError) : M unit :=
  if b then fail e else ret tt.

(** [if err := au.validate(); err != nil { return nil, ... }], logged. *)
Definition callValidate (contextName : string) (au : AuthInfo.t) : M unit :=
  ([au],
   match AuthInfo.validate au with
   | Some err => inl (InvalidAuthConfig contextName err)
   | None => inr tt
   end).

(** [x, err = base64.StdEncoding.DecodeString(data)] and the error return
    that follows it; [quoted] is the string the message prints. *)
Definition decodeOrFail (field : base64Field) (quoted data : string)
  : M (list byte) :=
  let '(bytes, err) := base64.DecodeString data in
  match err with
  | Some e => fail (Base64DecodeError field quoted e)
  | None => ret bytes
  end.

(** [m[k]] for a map of pointers: the zero value [nil] at a missing key. *)
Definition index {V : Type} (m : gmap string (option V)) (k : string) : option V :=
  default None (m !! k).

(** The three loops of lines 164-175. *)
Definition authInfosOf (config : Config.t) : gmap string (option AuthInfo.t) :=
  foldl (fun authInfos obj =>
           <[AuthInfosItem.Name obj := AuthInfosItem.AuthInfo obj]> authInfos)
        ∅ (Config.AuthInfos config).

Definition clusterInfosOf (config : Config.t) : gmap string (option Cluster.t) :=
  foldl (fun clusterInfos obj =>
           <[ClustersItem.Name obj := ClustersItem.Cluster obj]> clusterInfos)
        ∅ (Config.Clusters config).

Definition contextsOf (config : Config.t) : gmap string (option Context.t) :=
  foldl (fun contexts obj =>
           <[ContextsItem.Name obj := ContextsItem.Context obj]> contexts)
        ∅ (Config.Contexts config).

(** Lines 164-261 of [buildConfig]: from the decoded [config] to the
    [kubeConfig].  [tlsConfig] is a pointer the source writes through; it is
    non-nil exactly when [isHTTPS], and every write is under [isHTTPS]. *)
Definition resolveConfig (config : Config.t) : M kubeConfig.t :=
  (let authInfos := authInfosOf config in
   let clusterInfos := clusterInfosOf config in
   let contexts := contextsOf config in

   let contextName := Config.CurrentContext config in
   configContext <- orFail (index contexts contextName)
                           (ContextNotFound contextName) ;;

   let clusterInfoName := Context.Cluster configContext in
   configClusterInfo <- orFail (index clusterInfos clusterInfoName)
                               (ClusterNotFound clusterInfoName) ;;

   failIf (len (Cluster.Server configClusterInfo) =? 0)%nat
          (EmptyServerAddress contextName) ;;;

   let authInfoName := Context.AuthInfo configContext in
   let configAuthInfo := index authInfos authInfoName in
   failIf (negb (String.eqb authInfoName "") && isNil configAuthInfo)
          (AuthInfoNotFound authInfoName) ;;;

   let isHTTPS := String.prefix "https://" (Cluster.Server configClusterInfo) in
   let tlsConfig :=
     if isHTTPS then
       Some {| promauth.CA := [];
               promauth.CAFile := Cluster.CertificateAuthority configClusterInfo;
               promauth.Cert := [];
               promauth.CertFile := "";
               promauth.Key := [];
               promauth.KeyFile := "";
               promauth.ServerName := Cluster.TLSServerName configClusterInfo;
               promauth.InsecureSkipVerify :=
                 Cluster.InsecureSkipTLSVerify configClusterInfo |}
     else None in

   tlsConfig <-
     (if (0 <? len (Cluster.CertificateAuthorityData configClusterInfo))%nat
         && isHTTPS then
        ca <- decodeOrFail CertificateAuthorityDataField
                (Cluster.CertificateAuthorityData configClusterInfo)
                (Cluster.CertificateAuthorityData configClusterInfo) ;;
        ret (promauth.set_CA ca <$> tlsConfig)
      else ret tlsConfig) ;;

   '(tlsConfig, basicAuth, token, tokenFile) <-
     match configAuthInfo with
     | Some configAuthInfo =>
         callValidate contextName configAuthInfo ;;;
         tlsConfig <-
           (if isHTTPS then
              let tlsConfig :=
                promauth.set_CertFile
                  (AuthInfo.ClientCertificate configAuthInfo) <$> tlsConfig in
              let tlsConfig :=
                promauth.set_KeyFile
                  (AuthInfo.ClientKey configAuthInfo) <$> tlsConfig in
              tlsConfig <-
                (if (0 <? len (AuthInfo.ClientCertificateData configAuthInfo))%nat then
                   cert <- decodeOrFail ClientCertificateDataField
                             (Cluster.CertificateAuthorityData configClusterInfo)
                             (AuthInfo.ClientCertificateData configAuthInfo) ;;
                   ret (promauth.set_Cert cert <$> tlsConfig)
                 else ret tlsConfig) ;;
              (if (0 <? len (AuthInfo.ClientKeyData configAuthInfo))%nat then
                 key <- decodeOrFail ClientKeyDataField
                          (Cluster.CertificateAuthorityData configClusterInfo)
                          (AuthInfo.ClientKeyData configAuthInfo) ;;
                 ret (promauth.set_Key key <$> tlsConfig)
               else ret tlsConfig)
            else ret tlsConfig) ;;
         let basicAuth :=
           if (0 <? len (AuthInfo.Username configAuthInfo))%nat
              || (0 <? len (AuthInfo.Password configAuthInfo))%nat then
             Some {| promauth.Username := AuthInfo.Username configAuthInfo;
                     promauth.Password :=
                       promauth.NewSecret (AuthInfo.Password configAuthInfo) |}
           else None in
         ret (tlsConfig, basicAuth,
              AuthInfo.Token configAuthInfo, AuthInfo.TokenFile configAuthInfo)
     | None => ret (tlsConfig, None, "", "")
     end ;;

   ret {| kubeConfig.basicAuth := basicAuth;
          kubeConfig.server := Cluster.Server configClusterInfo;
          kubeConfig.token := token;
          kubeConfig.tokenFile := tokenFile;
          kubeConfig.tlsConfig := tlsConfig;
          kubeConfig.proxyURL := Cluster.ProxyURL configClusterInfo |})%build.

(** ** [buildConfig] (lines 153-261)

    Reading the file and decoding the YAML are done by [fs.ReadFileOrHTTP]
    and [yaml.Unmarshal], which are not part of this file: they are taken
    as parameters, the first one reading the state [World] of the file
    system and the network.  Of [SDConfig] only the field [KubeConfig] is
    used. *)

Section External.

Variable World : Type.
Variable SDConfig : Type.
Variable KubeConfig : SDConfig -> string.
Variables readError yamlError : Type.
Variable ReadFileOrHTTP : World -> string -> readError + list byte.
Variable Unmarshal : list byte -> yamlError + Config.t.

Inductive error :=
  | CannotRead (path : string) (err : readError)
  | CannotParse (path : string) (err : yamlError)
  | CannotResolve (err : buildError).

Definition buildConfig (w : World) (sdc : SDConfig) : error + kubeConfig.t :=
  match ReadFileOrHTTP w (KubeConfig sdc) with
  | inl err => inl (CannotRead (KubeConfig sdc) err)
  | inr data =>
      match Unmarshal data with
      | inl err => inl (CannotParse (KubeConfig sdc) err)
      | inr config =>
          match snd (resolveConfig config) with
          | inl err => inl (CannotResolve err)
          | inr kc => inr kc
          end
      end
  end.

End External.

Arguments CannotRead {readError yamlError} path err.
Arguments CannotParse {readError yamlError} path err.
Arguments CannotResolve {readError yamlError} err.
Arguments buildConfig {World SDConfig} KubeConfig {readError yamlError}
  ReadFileOrHTTP Unmarshal w sdc.

(** ** What the current context refers to

    The context selected by [current-context], and the cluster and the user
    it references, as the lookups of lines 177-194 find them. *)

Definition resolvedContext (config : Config.t) : option Context.t :=
  index (contextsOf config) (Config.CurrentContext config).

Definition resolvedCluster (config : Config.t) : option Cluster.t :=
  match resolvedContext config with
  | Some configContext =>
      index (clusterInfosOf config) (Context.Cluster configContext)
  | None => None
  end.

Definition resolvedAuthInfo (config : Config.t) : option AuthInfo.t :=
  match resolvedContext config with
  | Some configContext =>
      index (authInfosOf config) (Context.AuthInfo configContext)
  | None => None
  end.

(** ** Sample configurations *)

Module Sample.

Definition cluster (server caData : string) : Cluster.t :=
  {| Cluster.Server := server;
     Cluster.TLSServerName := "";
     Cluster.InsecureSkipTLSVerify := false;
     Cluster.CertificateAuthority := "";
     Cluster.CertificateAuthorityData := caData;
     Cluster.ProxyURL := None |}.

Definition user (token username password certData : string)
  (exec : option ExecConfig.t) : AuthInfo.t :=
  {| AuthInfo.ClientCertificate := "";
     AuthInfo.ClientCertificateData := certData;
     AuthInfo.ClientKey := "";
     AuthInfo.ClientKeyData := "";
     AuthInfo.Exec := exec;
     AuthInfo.Token := token;
     AuthInfo.TokenFile := "";
     AuthInfo.Impersonate := "";
     AuthInfo.ImpersonateUID := "";
     AuthInfo.ImpersonateGroups := [];
     AuthInfo.ImpersonateUserExtra := [];
     AuthInfo.Username := username;
     AuthInfo.Password := password |}.

Definition execConfig : ExecConfig.t :=
  {| ExecConfig.Command := "aws";
     ExecConfig.Args := ["eks"; "get-token"];
     ExecConfig.Env := [];
     ExecConfig.APIVersion := "client.authentication.k8s.io/v1beta1";
     ExecConfig.InstallHint := "";
     ExecConfig.ProvideClusterInfo := false;
     ExecConfig.InteractiveMode := "" |}.

Definition clusterEntry (name : string) (c : option Cluster.t) : ClustersItem.t :=
  {| ClustersItem.Name := name; ClustersItem.Cluster := c |}.

Definition userEntry (name : string) (u : option AuthInfo.t) : AuthInfosItem.t :=
  {| AuthInfosItem.Name := name; AuthInfosItem.AuthInfo := u |}.

Definition contextEntry (name : string) (c : option Context.t) : ContextsItem.t :=
  {| ContextsItem.Name := name; ContextsItem.Context := c |}.

Definition context (cluster user : string) : Context.t :=
  {| Context.Cluster := cluster; Context.AuthInfo := user |}.

Definition config (clusters : list ClustersItem.t) (users : list AuthInfosItem.t)
  (contexts : list ContextsItem.t) (current : string) : Config.t :=
  {| Config.Kind := "Config";
     Config.APIVersion := "v1";
     Config.Clusters := clusters;
     Config.AuthInfos := users;
     Config.Contexts := contexts;
     Config.CurrentContext := current |}.

(** The end-to-end example: cluster [c1] over https with CA data [Zm9v],
    user [u1] with a token. *)
Definition endToEnd : Config.t :=
  config [clusterEntry "c1" (Some (cluster "https://10.0.0.1:6443" "Zm9v"))]
         [userEntry "u1" (Some (user "abc123" "" "" "" None))]
         [contextEntry "ctx1" (Some (context "c1" "u1"))]
         "ctx1".

(** A plain-http server; the cluster has CA data and the user has
    client-certificate data, a token and a password. *)
Definition plainHttp : Config.t :=
  config [clusterEntry "c1" (Some (cluster "http://host:1234" "Zm9v"))]
         [userEntry "u1" (Some (user "abc123" "admin" "hunter2" "Zm9v" None))]
         [contextEntry "ctx1" (Some (context "c1" "u1"))]
         "ctx1".

(** The context names no user, and the users hold an entry whose name is
    the empty string. *)
Definition emptyNamedUser : Config.t :=
  config [clusterEntry "c1" (Some (cluster "http://host:1234" ""))]
         [userEntry "" (Some (user "abc123" "" "" "" None))]
         [contextEntry "ctx1" (Some (context "c1" ""))]
         "ctx1".

(** The context names no user, and the CA data of the https cluster is not
    base64. *)
Definition noUserBadCA : Config.t :=
  config [clusterEntry "c1" (Some (cluster "https://10.0.0.1:6443" "not-base64!"))]
         []
         [contextEntry "ctx1" (Some (context "c1" ""))]
         "ctx1".

(** The context names no user; the users hold an unrelated entry. *)
Definition noUser : Config.t :=
  config [clusterEntry "c1" (Some (cluster "https://10.0.0.1:6443" "Zm9v"))]
         [userEntry "u1" (Some (user "abc123" "" "" "" None))]
         [contextEntry "ctx1" (Some (context "c1" ""))]
         "ctx1".

(** The context names a user that does not exist, and the CA data of the
    https cluster is not base64. *)
Definition ghostUserBadCA : Config.t :=
  config [clusterEntry "c1" (Some (cluster "https://10.0.0.1:6443" "not-base64!"))]
         []
         [contextEntry "ctx1" (Some (context "c1" "ghost"))]
         "ctx1".

(** Two clusters named [a]. *)
Definition duplicateClusters : Config.t :=
  config [clusterEntry "a" (Some (cluster "https://s1:6443" ""));
          clusterEntry "a" (Some (cluster "https://s2:6443" ""))]
         []
         [contextEntry "ctx1" (Some (context "a" ""))]
         "ctx1".

(** Entries without a body. *)
Definition contextWithoutBody : Config.t :=
  config [] [] [contextEntry "ctx1" None] "ctx1".

Definition clusterWithoutBody : Config.t :=
  config [clusterEntry "c1" None] []
         [contextEntry "ctx1" (Some (context "c1" ""))] "ctx1".

Definition userWithoutBody : Config.t :=
  config [clusterEntry "c1" (Some (cluster "http://host:1234" ""))]
         [userEntry "u1" None]
         [contextEntry "ctx1" (Some (context "c1" "u1"))] "ctx1".

(** The context names no user, and the users hold a body-less entry whose
    name is the empty string. *)
Definition emptyNamedUserWithoutBody : Config.t :=
  config [clusterEntry "c1" (Some (cluster "http://host:1234" ""))]
         [userEntry "" None]
         [contextEntry "ctx1" (Some (context "c1" ""))] "ctx1".

(** A file system with one kubeconfig, and a decoder that knows one
    document. *)
Definition readFile (w : gmap string (list byte)) (path : string)
  : string + list byte :=
  match w !! path with
  | Some data => inr data
  | None => inl "no such file"
  end.

Definition unmarshal (data : list byte) : string + Config.t :=
  match data with
  | [] => inl "empty document"
  | _ :: _ => inr endToEnd
  end.

End Sample.

(** ** Further sample configurations *)

Module More.

(** The end-to-end example with its entries in another order and with
    unreferenced entries around them; the unreferenced user has an exec
    descriptor. *)
Definition crowded : Config.t :=
  Sample.config
    [Sample.clusterEntry "c0" (Some (Sample.cluster "" ""));
     Sample.clusterEntry "c1" (Some (Sample.cluster "https://10.0.0.1:6443" "Zm9v"))]
    [Sample.userEntry "u0" (Some (Sample.user "" "" "secret" "" (Some Sample.execConfig)));
     Sample.userEntry "u1" (Some (Sample.user "abc123" "" "" "" None))]
    [Sample.contextEntry "ctx0" (Some (Sample.context "c0" "u0"));
     Sample.contextEntry "ctx1" (Some (Sample.context "c1" "u1"))]
    "ctx1".

Definition crowdedReordered : Config.t :=
  Sample.config
    [Sample.clusterEntry "c1" (Some (Sample.cluster "https://10.0.0.1:6443" "Zm9v"));
     Sample.clusterEntry "c0" (Some (Sample.cluster "" ""))]
    [Sample.userEntry "u1" (Some (Sample.user "abc123" "" "" "" None));
     Sample.userEntry "u0" (Some (Sample.user "" "" "secret" "" (Some Sample.execConfig)))]
    [Sample.contextEntry "ctx1" (Some (Sample.context "c1" "u1"));
     Sample.contextEntry "ctx0" (Some (Sample.context "c0" "u0"))]
    "ctx1".

(** A user with client certificate and key, as paths and as base64 data. *)
Definition certUser (certData keyData : string) : AuthInfo.t :=
  {| AuthInfo.ClientCertificate := "/etc/kube/client.crt";
     AuthInfo.ClientCertificateData := certData;
     AuthInfo.ClientKey := "/etc/kube/client.key";
     AuthInfo.ClientKeyData := keyData;
     AuthInfo.Exec := None;
     AuthInfo.Token := "";
     AuthInfo.TokenFile := "/var/run/token";
     AuthInfo.Impersonate := "";
     AuthInfo.ImpersonateUID := "";
     AuthInfo.ImpersonateGroups := [];
     AuthInfo.ImpersonateUserExtra := [];
     AuthInfo.Username := "";
     AuthInfo.Password := "" |}.

(** An https cluster with CA data [caData] and one user. *)
Definition https (caData : string) (u : AuthInfo.t) : Config.t :=
  Sample.config
    [Sample.clusterEntry "c1" (Some (Sample.cluster "https://10.0.0.1:6443" caData))]
    [Sample.userEntry "u1" (Some u)]
    [Sample.contextEntry "ctx1" (Some (Sample.context "c1" "u1"))]
    "ctx1".

(** A plain-http cluster and one user. *)
Definition http (u : AuthInfo.t) : Config.t :=
  Sample.config
    [Sample.clusterEntry "c1" (Some (Sample.cluster "http://host:1234" ""))]
    [Sample.userEntry "u1" (Some u)]
    [Sample.contextEntry "ctx1" (Some (Sample.context "c1" "u1"))]
    "ctx1".

(** A plain-http cluster behind a proxy, with base64 fields that do not
    decode. *)
Definition proxied : Config.t :=
  Sample.config
    [Sample.clusterEntry "c1"
       (Some {| Cluster.Server := "http://host:1234";
                Cluster.TLSServerName := "kube.local";
                Cluster.InsecureSkipTLSVerify := true;
                Cluster.CertificateAuthority := "/etc/kube/ca.crt";
                Cluster.CertificateAuthorityData := "not-base64!";
                Cluster.ProxyURL := Some {| proxy.text := "http://proxy:3128" |} |})]
    [Sample.userEntry "u1" (Some (certUser "not-base64!" "@@"))]
    [Sample.contextEntry "ctx1" (Some (Sample.context "c1" "u1"))]
    "ctx1".

End More.

(** * Properties *)

(** ** The base64 decoder on the two inputs of the specification *)

Example DecodeString_foo :
  base64.DecodeString "Zm9v" = (["f"%byte; "o"%byte; "o"%byte], None).
Proof. reflexivity. Qed.

Example DecodeString_not_base64 :
  base64.DecodeString "not-base64!" = ([], Some (base64.CorruptInput 3)).
Proof. reflexivity. Qed.

Example DecodeString_padding :
  base64.DecodeString "Zm8=" = (["f"%byte; "o"%byte], None)
  /\ base64.DecodeString "Zg==" = (["f"%byte], None)
  /\ base64.DecodeString "Zg=" = ([], Some (base64.CorruptInput 3))
  /\ base64.DecodeString "Zm9" = ([], Some (base64.CorruptInput 0)).
Proof. repeat split. Qed.

(** ** The end-to-end example of the specification *)

Example resolveConfig_endToEnd :
  resolveConfig Sample.endToEnd =
    ([Sample.user "abc123" "" "" "" None],
     inr {| kubeConfig.basicAuth := None;
            kubeConfig.server := "https://10.0.0.1:6443";
            kubeConfig.token := "abc123";
            kubeConfig.tokenFile := "";
            kubeConfig.tlsConfig :=
              Some {| promauth.CA := ["f"%byte; "o"%byte; "o"%byte];
                      promauth.CAFile := "";
                      promauth.Cert := [];
                      promauth.CertFile := "";
                      promauth.Key := [];
                      promauth.KeyFile := "";
                      promauth.ServerName := "";
                      promauth.InsecureSkipVerify := false |};
            kubeConfig.proxyURL := None |}).
Proof. vm_compute. reflexivity. Qed.

(** ** Strings and pointers *)

Lemma len_eqb_0 (s : string) : (len s =? 0)%nat = true <-> s = "".
Proof. unfold len. destruct s; simpl; split; intros H; done. Qed.

Lemma len_eqb_0_false (s : string) : (len s =? 0)%nat = false <-> s <> "".
Proof. rewrite <- len_eqb_0. destruct (len s =? 0)%nat; split; congruence. Qed.

Lemma len_pos (s : string) : (0 <? len s)%nat = true <-> s <> "".
Proof. unfold len. destruct s; simpl; split; intros H; done. Qed.

Lemma len_pos_false (s : string) : (0 <? len s)%nat = false <-> s = "".
Proof. unfold len. destruct s; simpl; split; intros H; done. Qed.

Lemma length_pos {A : Type} (l : list A) :
  (0 <? List.length l)%nat = true <-> l <> [].
Proof. destruct l; simpl; split; intros H; done. Qed.

Lemma string_eqb_empty (s : string) : String.eqb s "" = false <-> s <> "".
Proof. unfold len. destruct s; simpl; split; intros H; done. Qed.

(** ** The name-keyed mappings *)

Section NameMap.

Context {E V : Type} (name : E -> string) (body : E -> option V).

Let step (m : gmap string (option V)) (obj : E) : gmap string (option V) :=
  <[name obj := body obj]> m.

(** Entries under other names leave a binding alone. *)
Lemma foldl_insert_other (l : list E) (m : gmap string (option V)) (k : string) :
  (forall e, e ∈ l -> name e <> k) ->
  foldl step m l !! k = m !! k.
Proof.
  revert m. induction l as [|e l IH]; intros m Hl; simpl.
  - reflexivity.
  - rewrite IH.
    + unfold step. apply lookup_insert_ne. apply Hl. left.
    + intros e' He'. apply Hl. right. exact He'.
Qed.

(** The last entry of a name is the one the mapping keeps. *)
Lemma foldl_insert_last (l1 l2 : list E) (e : E) (m : gmap string (option V)) :
  (forall e', e' ∈ l2 -> name e' <> name e) ->
  foldl step m (l1 ++ e :: l2) !! name e = Some (body e).
Proof.
  intros Hl2. rewrite foldl_app. simpl.
  rewrite foldl_insert_other by exact Hl2.
  unfold step. apply lookup_insert_eq.
Qed.

(** A name that no entry has is not bound. *)
Lemma foldl_insert_absent (l : list E) (k : string) :
  (forall e, e ∈ l -> name e <> k) ->
  foldl step ∅ l !! k = None.
Proof. intros Hl. rewrite foldl_insert_other by exact Hl. apply lookup_empty. Qed.

End NameMap.

Lemma index_Some {V : Type} (m : gmap string (option V)) (k : string) (v : V) :
  index m k = Some v <-> m !! k = Some (Some v).
Proof.
  unfold index. destruct (m !! k) as [[v'|]|]; simpl; split; intros H; congruence.
Qed.

Lemma index_nil_body {V : Type} (m : gmap string (option V)) (k : string) :
  m !! k = Some None -> index m k = None.
Proof. unfold index. intros ->. reflexivity. Qed.

(** C4: the three name-keyed mappings are last-write-wins.  Of two entries
    with one name, the later one is bound when no entry after it has the
    name again; two clusters named [a] resolve to the second; an empty
    sequence gives the empty mapping. *)
Theorem name_resolver_last_write_wins (config : Config.t) :
  (forall l1 e1 l2 e2 l3,
      Config.Clusters config = l1 ++ e1 :: l2 ++ e2 :: l3 ->
      ClustersItem.Name e1 = ClustersItem.Name e2 ->
      (forall e, e ∈ l3 -> ClustersItem.Name e <> ClustersItem.Name e2) ->
      clusterInfosOf config !! ClustersItem.Name e1
        = Some (ClustersItem.Cluster e2))
  /\ (forall l1 e1 l2 e2 l3,
      Config.AuthInfos config = l1 ++ e1 :: l2 ++ e2 :: l3 ->
      AuthInfosItem.Name e1 = AuthInfosItem.Name e2 ->
      (forall e, e ∈ l3 -> AuthInfosItem.Name e <> AuthInfosItem.Name e2) ->
      authInfosOf config !! AuthInfosItem.Name e1
        = Some (AuthInfosItem.AuthInfo e2))
  /\ (forall l1 e1 l2 e2 l3,
      Config.Contexts config = l1 ++ e1 :: l2 ++ e2 :: l3 ->
      ContextsItem.Name e1 = ContextsItem.Name e2 ->
      (forall e, e ∈ l3 -> ContextsItem.Name e <> ContextsItem.Name e2) ->
      contextsOf config !! ContextsItem.Name e1
        = Some (ContextsItem.Context e2))
  /\ (forall a c1 c2,
      Config.Clusters config =
        [ {| ClustersItem.Name := a; ClustersItem.Cluster := Some c1 |};
          {| ClustersItem.Name := a; ClustersItem.Cluster := Some c2 |} ] ->
      index (clusterInfosOf config) a = Some c2)
  /\ (Config.Clusters config = [] -> clusterInfosOf config = ∅)
  /\ (Config.AuthInfos config = [] -> authInfosOf config = ∅)
  /\ (Config.Contexts config = [] -> contextsOf config = ∅).
Proof.
  unfold clusterInfosOf, authInfosOf, contextsOf.
  repeat split.
  - intros l1 e1 l2 e2 l3 -> -> Hl3.
    change (l1 ++ e1 :: l2 ++ e2 :: l3) with (l1 ++ (e1 :: l2) ++ e2 :: l3).
    rewrite app_assoc.
    apply (foldl_insert_last ClustersItem.Name ClustersItem.Cluster). exact Hl3.
  - intros l1 e1 l2 e2 l3 -> -> Hl3.
    change (l1 ++ e1 :: l2 ++ e2 :: l3) with (l1 ++ (e1 :: l2) ++ e2 :: l3).
    rewrite app_assoc.
    apply (foldl_insert_last AuthInfosItem.Name AuthInfosItem.AuthInfo). exact Hl3.
  - intros l1 e1 l2 e2 l3 -> -> Hl3.
    change (l1 ++ e1 :: l2 ++ e2 :: l3) with (l1 ++ (e1 :: l2) ++ e2 :: l3).
    rewrite app_assoc.
    apply (foldl_insert_last ContextsItem.Name ContextsItem.Context). exact Hl3.
  - intros a c1 c2 ->. apply index_Some. simpl. apply lookup_insert_eq.
  - intros ->. reflexivity.
  - intros ->. reflexivity.
  - intros ->. reflexivity.
Qed.

Lemma name_resolver_last_write_wins_witness :
  clusterInfosOf Sample.duplicateClusters !! "a"
    = Some (Some (Sample.cluster "https://s2:6443" ""))
  /\ index (clusterInfosOf Sample.duplicateClusters) "a"
    = Some (Sample.cluster "https://s2:6443" "").
Proof.
  pose proof (name_resolver_last_write_wins Sample.duplicateClusters)
    as (Hlast & _ & _ & Hdup & _).
  split.
  - apply (Hlast [] (Sample.clusterEntry "a" (Some (Sample.cluster "https://s1:6443" "")))
                 [] (Sample.clusterEntry "a" (Some (Sample.cluster "https://s2:6443" "")))
                 []).
    + reflexivity.
    + reflexivity.
    + intros e He. inversion He.
  - apply (Hdup "a" (Sample.cluster "https://s1:6443" "")
                (Sample.cluster "https://s2:6443" "")).
    reflexivity.
Defined.

(** ** The validator *)

(** C5: [validate] checks its six rules in order and the first failing one
    decides: the exec descriptor whatever the other fields are, then the
    impersonation UID, user, groups and extra fields, then a password
    without a username; a user that triggers none of them is accepted. *)
Theorem validate_first_failing_rule_wins (au : AuthInfo.t) :
  (AuthInfo.Exec au <> None ->
   AuthInfo.validate au = Some (UnsupportedAuthField "exec"))
  /\ (AuthInfo.Exec au = None ->
      AuthInfo.ImpersonateUID au <> "" ->
      AuthInfo.validate au = Some (UnsupportedAuthField "act-as-uid"))
  /\ (AuthInfo.Exec au = None ->
      AuthInfo.ImpersonateUID au = "" ->
      AuthInfo.Impersonate au <> "" ->
      AuthInfo.validate au = Some (UnsupportedAuthField "act-as"))
  /\ (AuthInfo.Exec au = None ->
      AuthInfo.ImpersonateUID au = "" ->
      AuthInfo.Impersonate au = "" ->
      AuthInfo.ImpersonateGroups au <> [] ->
      AuthInfo.validate au = Some (UnsupportedAuthField "act-as-groups"))
  /\ (AuthInfo.Exec au = None ->
      AuthInfo.ImpersonateUID au = "" ->
      AuthInfo.Impersonate au = "" ->
      AuthInfo.ImpersonateGroups au = [] ->
      AuthInfo.ImpersonateUserExtra au <> [] ->
      AuthInfo.validate au = Some (UnsupportedAuthField "act-as-user-extra"))
  /\ (AuthInfo.Exec au = None ->
      AuthInfo.ImpersonateUID au = "" ->
      AuthInfo.Impersonate au = "" ->
      AuthInfo.ImpersonateGroups au = [] ->
      AuthInfo.ImpersonateUserExtra au = [] ->
      AuthInfo.Password au <> "" ->
      AuthInfo.Username au = "" ->
      AuthInfo.validate au = Some InvalidCredentials)
  /\ (AuthInfo.Exec au = None ->
      AuthInfo.ImpersonateUID au = "" ->
      AuthInfo.Impersonate au = "" ->
      AuthInfo.ImpersonateGroups au = [] ->
      AuthInfo.ImpersonateUserExtra au = [] ->
      AuthInfo.Password au = "" \/ AuthInfo.Username au <> "" ->
      AuthInfo.validate au = None).
Proof.
  destruct au as [cc ccd ck ckd exec tok tokf imp uid groups extra username password].
  unfold AuthInfo.validate; simpl.
  repeat split.
  - destruct exec; [reflexivity | congruence].
  - intros -> Huid. simpl. apply len_pos in Huid. rewrite Huid. reflexivity.
  - intros -> -> Himp. simpl. apply len_pos in Himp. rewrite Himp. reflexivity.
  - intros -> -> -> Hgroups. simpl.
    apply length_pos in Hgroups. rewrite Hgroups. reflexivity.
  - intros -> -> -> -> Hextra. simpl.
    apply length_pos in Hextra. rewrite Hextra. reflexivity.
  - intros -> -> -> -> -> Hpassword ->. simpl.
    apply len_pos in Hpassword. rewrite Hpassword. reflexivity.
  - intros -> -> -> -> -> [-> | Husername]; simpl.
    + reflexivity.
    + apply len_eqb_0_false in Husername. rewrite Husername.
      rewrite andb_false_r. reflexivity.
Qed.

Lemma validate_first_failing_rule_wins_witness :
  AuthInfo.validate (Sample.user "abc123" "" "hunter2" "" (Some Sample.execConfig))
    = Some (UnsupportedAuthField "exec")
  /\ AuthInfo.validate (Sample.user "abc123" "" "hunter2" "" None)
    = Some InvalidCredentials
  /\ AuthInfo.validate (Sample.user "abc123" "admin" "hunter2" "" None) = None.
Proof.
  split; [| split].
  - apply (proj1 (validate_first_failing_rule_wins
                    (Sample.user "abc123" "" "hunter2" "" (Some Sample.execConfig)))).
    discriminate.
  - pose proof (validate_first_failing_rule_wins
                  (Sample.user "abc123" "" "hunter2" "" None))
      as (_ & _ & _ & _ & _ & Hcred & _).
    apply Hcred; try reflexivity. discriminate.
  - pose proof (validate_first_failing_rule_wins
                  (Sample.user "abc123" "admin" "hunter2" "" None))
      as (_ & _ & _ & _ & _ & _ & Hok).
    apply Hok; try reflexivity. right. discriminate.
Defined.

(** The password rule, as the resolution uses it. *)
Lemma validate_None_password (au : AuthInfo.t) :
  AuthInfo.validate au = None ->
  AuthInfo.Password au <> "" -> AuthInfo.Username au <> "".
Proof.
  unfold AuthInfo.validate. intros Hv Hpassword Husername.
  apply len_pos in Hpassword. apply len_eqb_0 in Husername.
  rewrite Hpassword, Husername in Hv. simpl in Hv.
  repeat match type of Hv with
         | (if ?b then _ else _) = _ => destruct b
         end; discriminate.
Qed.

(** ** The lookups of the resolution *)

Lemma resolvedCluster_lookup (config : Config.t) (ctx : Context.t) (cl : Cluster.t) :
  resolvedContext config = Some ctx ->
  resolvedCluster config = Some cl ->
  index (clusterInfosOf config) (Context.Cluster ctx) = Some cl.
Proof. unfold resolvedCluster. intros ->. trivial. Qed.

Lemma resolvedAuthInfo_lookup (config : Config.t) (ctx : Context.t) :
  resolvedContext config = Some ctx ->
  resolvedAuthInfo config = index (authInfosOf config) (Context.AuthInfo ctx).
Proof. unfold resolvedAuthInfo. intros ->. reflexivity. Qed.

(** Evaluation of the monadic steps once their outcome is known. *)
Ltac eval_steps := cbn [bind orFail failIf ret fail fst snd app].

(** Lines 177-191: the resolution up to the check of the server address. *)
Ltac enter_resolution Hctx Hcl Hserver :=
  unfold resolveConfig;
  unfold resolvedContext in Hctx; rewrite Hctx; eval_steps;
  rewrite Hcl; eval_steps;
  rewrite (proj2 (len_eqb_0_false _) Hserver); eval_steps.

(** C2, as the code has it: with an https cluster whose CA data is not
    base64 and a context that names a user the mapping does not hold, the
    resolution fails with [AuthInfoNotFound]: the user is looked up (lines
    193-197) before the CA data is decoded (lines 212-217). *)
Theorem missing_user_reported_before_ca_decode
  (config : Config.t) (ctx : Context.t) (cl : Cluster.t)
  (e : base64.CorruptInputError) :
  resolvedContext config = Some ctx ->
  resolvedCluster config = Some cl ->
  Cluster.Server cl <> "" ->
  String.prefix "https://" (Cluster.Server cl) = true ->
  Cluster.CertificateAuthorityData cl <> "" ->
  snd (base64.DecodeString (Cluster.CertificateAuthorityData cl)) = Some e ->
  Context.AuthInfo ctx <> "" ->
  index (authInfosOf config) (Context.AuthInfo ctx) = None ->
  resolveConfig config = ([], inl (AuthInfoNotFound (Context.AuthInfo ctx))).
Proof.
  intros Hctx Hcl Hserver _ _ _ Huser Habsent.
  apply (resolvedCluster_lookup _ _ _ Hctx) in Hcl.
  enter_resolution Hctx Hcl Hserver.
  rewrite Habsent, (proj2 (string_eqb_empty _) Huser). reflexivity.
Qed.

Lemma missing_user_reported_before_ca_decode_witness :
  resolveConfig Sample.ghostUserBadCA = ([], inl (AuthInfoNotFound "ghost")).
Proof.
  apply (missing_user_reported_before_ca_decode
           Sample.ghostUserBadCA (Sample.context "c1" "ghost")
           (Sample.cluster "https://10.0.0.1:6443" "not-base64!")
           (base64.CorruptInput 3)).
  - vm_compute. reflexivity.
  - vm_compute. reflexivity.
  - discriminate.
  - reflexivity.
  - discriminate.
  - reflexivity.
  - discriminate.
  - vm_compute. reflexivity.
Defined.

(** C2, as stated, fails: on [Sample.ghostUserBadCA] every premise holds
    and the failure is [AuthInfoNotFound], not a [Base64DecodeError]. *)
Lemma ca_decode_before_user_lookup_counterexample :
  ~ (forall (config : Config.t) (ctx : Context.t) (cl : Cluster.t)
            (e : base64.CorruptInputError),
        resolvedContext config = Some ctx ->
        resolvedCluster config = Some cl ->
        Cluster.Server cl <> "" ->
        String.prefix "https://" (Cluster.Server cl) = true ->
        Cluster.CertificateAuthorityData cl <> "" ->
        snd (base64.DecodeString (Cluster.CertificateAuthorityData cl)) = Some e ->
        Context.AuthInfo ctx <> "" ->
        authInfosOf config !! Context.AuthInfo ctx = None ->
        snd (resolveConfig config)
          = inl (Base64DecodeError CertificateAuthorityDataField
                   (Cluster.CertificateAuthorityData cl) e)).
Proof.
  intros Hclaim.
  specialize (Hclaim Sample.ghostUserBadCA (Sample.context "c1" "ghost")
                (Sample.cluster "https://10.0.0.1:6443" "not-base64!")
                (base64.CorruptInput 3)).
  assert (Hrun : snd (resolveConfig Sample.ghostUserBadCA)
                 = inl (AuthInfoNotFound "ghost"))
    by (vm_compute; reflexivity).
  rewrite Hrun in Hclaim.
  discriminate Hclaim.
  - vm_compute. reflexivity.
  - vm_compute. reflexivity.
  - discriminate.
  - reflexivity.
  - discriminate.
  - reflexivity.
  - discriminate.
  - vm_compute. reflexivity.
Qed.

(** ** What a successful resolution returns *)

(** The basic-auth pair of lines 241-246. *)
Lemma basicAuth_cases (au : AuthInfo.t) (b : option promauth.BasicAuthConfig) :
  b = (if (0 <? len (AuthInfo.Username au))%nat
          || (0 <? len (AuthInfo.Password au))%nat
       then Some {| promauth.Username := AuthInfo.Username au;
                    promauth.Password :=
                      promauth.NewSecret (AuthInfo.Password au) |}
       else None) ->
  (AuthInfo.Username au <> "" \/ AuthInfo.Password au <> "" ->
   b = Some {| promauth.Username := AuthInfo.Username au;
               promauth.Password := promauth.NewSecret (AuthInfo.Password au) |})
  /\ (AuthInfo.Username au = "" -> AuthInfo.Password au = "" -> b = None).
Proof.
  intros ->. split.
  - intros [H | H]; apply len_pos in H; rewrite H.
    + reflexivity.
    + rewrite orb_true_r. reflexivity.
  - intros Hu Hp. apply len_pos_false in Hu, Hp. rewrite Hu, Hp. reflexivity.
Qed.

(** Inversion of a success: both lookups found a body, the server address
    is not empty, and the fields of the result are the ones lines 199-258
    assign. *)
Lemma resolveConfig_inr (config : Config.t) (log : list AuthInfo.t)
  (kc : kubeConfig.t) :
  resolveConfig config = (log, inr kc) ->
  exists ctx cl,
    resolvedContext config = Some ctx
    /\ resolvedCluster config = Some cl
    /\ Cluster.Server cl <> ""
    /\ kubeConfig.server kc = Cluster.Server cl
    /\ kubeConfig.proxyURL kc = Cluster.ProxyURL cl
    /\ (String.prefix "https://" (Cluster.Server cl) = false ->
        kubeConfig.tlsConfig kc = None)
    /\ match resolvedAuthInfo config with
       | Some au =>
           log = [au] /\ AuthInfo.validate au = None
           /\ kubeConfig.token kc = AuthInfo.Token au
           /\ kubeConfig.tokenFile kc = AuthInfo.TokenFile au
           /\ kubeConfig.basicAuth kc =
                (if (0 <? len (AuthInfo.Username au))%nat
                    || (0 <? len (AuthInfo.Password au))%nat
                 then Some {| promauth.Username := AuthInfo.Username au;
                              promauth.Password :=
                                promauth.NewSecret (AuthInfo.Password au) |}
                 else None)
       | None =>
           log = [] /\ kubeConfig.token kc = "" /\ kubeConfig.tokenFile kc = ""
           /\ kubeConfig.basicAuth kc = None
       end.
Proof.
  unfold resolveConfig, resolvedAuthInfo, resolvedCluster, resolvedContext.
  destruct (index (contextsOf config) (Config.CurrentContext config))
    as [ctx|]; [| discriminate].
  eval_steps.
  destruct (index (clusterInfosOf config) (Context.Cluster ctx))
    as [cl|]; [| discriminate].
  eval_steps.
  destruct (len (Cluster.Server cl) =? 0)%nat eqn:Hserver; [discriminate |].
  apply len_eqb_0_false in Hserver.
  eval_steps.
  destruct (negb (Context.AuthInfo ctx =? "")
            && isNil (index (authInfosOf config) (Context.AuthInfo ctx)));
    [discriminate |].
  eval_steps.
  intros Hrun. exists ctx, cl.
  split; [reflexivity |]. split; [reflexivity |]. split; [exact Hserver |].
  unfold callValidate, decodeOrFail, bind, ret, fail in Hrun.
  destruct (String.prefix "https://" (Cluster.Server cl));
    destruct (index (authInfosOf config) (Context.AuthInfo ctx)) as [au|];
    repeat (case_match; simplify_eq/=);
    repeat split; congruence.
Qed.

(** C3: when the server address of the resolved cluster does not start
    with [https://], a successful resolution returns no TLS bundle, whatever
    CA, client-certificate or client-key material the cluster and the user
    carry. *)
Theorem insecure_server_yields_no_tls
  (config : Config.t) (cl : Cluster.t) (log : list AuthInfo.t) (kc : kubeConfig.t) :
  resolvedCluster config = Some cl ->
  String.prefix "https://" (Cluster.Server cl) = false ->
  resolveConfig config = (log, inr kc) ->
  kubeConfig.tlsConfig kc = None.
Proof.
  intros Hcl Hscheme Hrun.
  destruct (resolveConfig_inr _ _ _ Hrun)
    as (ctx & cl' & _ & Hcl' & _ & _ & _ & Htls & _).
  rewrite Hcl in Hcl'. injection Hcl' as <-.
  apply Htls, Hscheme.
Qed.

Lemma insecure_server_yields_no_tls_witness :
  AuthInfo.ClientCertificateData (Sample.user "abc123" "admin" "hunter2" "Zm9v" None)
    = "Zm9v"
  /\ kubeConfig.tlsConfig
       {| kubeConfig.basicAuth :=
            Some {| promauth.Username := "admin";
                    promauth.Password := promauth.NewSecret "hunter2" |};
          kubeConfig.server := "http://host:1234";
          kubeConfig.token := "abc123";
          kubeConfig.tokenFile := "";
          kubeConfig.tlsConfig := None;
          kubeConfig.proxyURL := None |} = None.
Proof.
  split; [reflexivity |].
  apply (insecure_server_yields_no_tls Sample.plainHttp
           (Sample.cluster "http://host:1234" "Zm9v")
           [Sample.user "abc123" "admin" "hunter2" "Zm9v" None]).
  - vm_compute. reflexivity.
  - reflexivity.
  - vm_compute. reflexivity.
Defined.

(** C6: the server field of a successful resolution is the server field
    of the cluster the current context references, character for
    character. *)
Theorem server_field_is_cluster_server
  (config : Config.t) (log : list AuthInfo.t) (kc : kubeConfig.t) :
  resolveConfig config = (log, inr kc) ->
  exists cl, resolvedCluster config = Some cl
             /\ kubeConfig.server kc = Cluster.Server cl.
Proof.
  intros Hrun.
  destruct (resolveConfig_inr _ _ _ Hrun)
    as (ctx & cl & _ & Hcl & _ & Hserver & _).
  exists cl. split; assumption.
Qed.

Lemma server_field_is_cluster_server_witness :
  exists cl, resolvedCluster Sample.endToEnd = Some cl
             /\ "https://10.0.0.1:6443" = Cluster.Server cl.
Proof.
  apply (server_field_is_cluster_server Sample.endToEnd
           [Sample.user "abc123" "" "" "" None]
           {| kubeConfig.basicAuth := None;
              kubeConfig.server := "https://10.0.0.1:6443";
              kubeConfig.token := "abc123";
              kubeConfig.tokenFile := "";
              kubeConfig.tlsConfig :=
                Some {| promauth.CA := ["f"%byte; "o"%byte; "o"%byte];
                        promauth.CAFile := "";
                        promauth.Cert := [];
                        promauth.CertFile := "";
                        promauth.Key := [];
                        promauth.KeyFile := "";
                        promauth.ServerName := "";
                        promauth.InsecureSkipVerify := false |};
              kubeConfig.proxyURL := None |}).
  vm_compute. reflexivity.
Defined.

(** C8: a returned basic-auth pair with a non-empty password has a
    non-empty username. *)
Theorem returned_password_has_username
  (config : Config.t) (log : list AuthInfo.t) (kc : kubeConfig.t)
  (ba : promauth.BasicAuthConfig) :
  resolveConfig config = (log, inr kc) ->
  kubeConfig.basicAuth kc = Some ba ->
  promauth.value (promauth.Password ba) <> "" ->
  promauth.Username ba <> "".
Proof.
  intros Hrun Hba Hpassword.
  destruct (resolveConfig_inr _ _ _ Hrun)
    as (ctx & cl & _ & _ & _ & _ & _ & _ & Huser).
  destruct (resolvedAuthInfo config) as [au|].
  - destruct Huser as (_ & Hvalid & _ & _ & Hpair).
    rewrite Hba in Hpair.
    destruct ((0 <? len (AuthInfo.Username au))%nat
              || (0 <? len (AuthInfo.Password au))%nat); [| discriminate].
    injection Hpair as ->. simpl in *.
    apply (validate_None_password au Hvalid Hpassword).
  - destruct Huser as (_ & _ & _ & Hpair). congruence.
Qed.

Lemma returned_password_has_username_witness : "admin" <> "".
Proof.
  apply (returned_password_has_username Sample.plainHttp
           [Sample.user "abc123" "admin" "hunter2" "Zm9v" None]
           {| kubeConfig.basicAuth :=
                Some {| promauth.Username := "admin";
                        promauth.Password := promauth.NewSecret "hunter2" |};
              kubeConfig.server := "http://host:1234";
              kubeConfig.token := "abc123";
              kubeConfig.tokenFile := "";
              kubeConfig.tlsConfig := None;
              kubeConfig.proxyURL := None |}
           {| promauth.Username := "admin";
              promauth.Password := promauth.NewSecret "hunter2" |}).
  - vm_compute. reflexivity.
  - reflexivity.
  - discriminate.
Defined.

(** C9: the credentials of a resolved user do not depend on the scheme.
    Every successful resolution carries the user's token, token file and,
    when the username or the password is non-empty, the basic-auth pair;
    and for a server address that is not https a resolved user that
    validates always gives a success, with these credentials and no TLS
    bundle. *)
Theorem credentials_carried_whatever_the_scheme
  (config : Config.t) (au : AuthInfo.t) :
  resolvedAuthInfo config = Some au ->
  (forall log kc,
      resolveConfig config = (log, inr kc) ->
      kubeConfig.token kc = AuthInfo.Token au
      /\ kubeConfig.tokenFile kc = AuthInfo.TokenFile au
      /\ (AuthInfo.Username au <> "" \/ AuthInfo.Password au <> "" ->
          kubeConfig.basicAuth kc =
            Some {| promauth.Username := AuthInfo.Username au;
                    promauth.Password :=
                      promauth.NewSecret (AuthInfo.Password au) |})
      /\ (AuthInfo.Username au = "" -> AuthInfo.Password au = "" ->
          kubeConfig.basicAuth kc = None))
  /\ (forall cl,
      resolvedCluster config = Some cl ->
      Cluster.Server cl <> "" ->
      String.prefix "https://" (Cluster.Server cl) = false ->
      AuthInfo.validate au = None ->
      exists kc,
        resolveConfig config = ([au], inr kc)
        /\ kubeConfig.tlsConfig kc = None
        /\ kubeConfig.token kc = AuthInfo.Token au
        /\ kubeConfig.tokenFile kc = AuthInfo.TokenFile au
        /\ (AuthInfo.Username au <> "" \/ AuthInfo.Password au <> "" ->
            kubeConfig.basicAuth kc =
              Some {| promauth.Username := AuthInfo.Username au;
                      promauth.Password :=
                        promauth.NewSecret (AuthInfo.Password au) |})).
Proof.
  intros Hau. split.
  - intros log kc Hrun.
    destruct (resolveConfig_inr _ _ _ Hrun)
      as (ctx & cl & _ & _ & _ & _ & _ & _ & Huser).
    rewrite Hau in Huser.
    destruct Huser as (_ & _ & Htoken & Hfile & Hpair).
    apply basicAuth_cases in Hpair. destruct Hpair as [Hsome Hnone].
    repeat split; assumption.
  - intros cl Hcl Hserver Hscheme Hvalid.
    unfold resolvedCluster in Hcl. unfold resolvedAuthInfo in Hau.
    destruct (resolvedContext config) as [ctx|] eqn:Hctx; [| discriminate].
    eexists. split.
    + enter_resolution Hctx Hcl Hserver.
      rewrite Hau, Hscheme. cbn [isNil]. rewrite andb_false_r, andb_false_r.
      eval_steps. unfold callValidate. rewrite Hvalid. eval_steps.
      reflexivity.
    + cbn [kubeConfig.tlsConfig kubeConfig.token kubeConfig.tokenFile
             kubeConfig.basicAuth].
      repeat split.
      eapply basicAuth_cases. reflexivity.
Qed.

Lemma credentials_carried_whatever_the_scheme_witness :
  exists kc,
    resolveConfig Sample.plainHttp
      = ([Sample.user "abc123" "admin" "hunter2" "Zm9v" None], inr kc)
    /\ kubeConfig.tlsConfig kc = None
    /\ kubeConfig.token kc = "abc123"
    /\ kubeConfig.tokenFile kc = ""
    /\ ("admin" <> "" \/ "hunter2" <> "" ->
        kubeConfig.basicAuth kc =
          Some {| promauth.Username := "admin";
                  promauth.Password := promauth.NewSecret "hunter2" |}).
Proof.
  assert (Hau : resolvedAuthInfo Sample.plainHttp
                = Some (Sample.user "abc123" "admin" "hunter2" "Zm9v" None))
    by (vm_compute; reflexivity).
  apply (proj2 (credentials_carried_whatever_the_scheme Sample.plainHttp _ Hau)
               (Sample.cluster "http://host:1234" "Zm9v")).
  - vm_compute. reflexivity.
  - discriminate.
  - reflexivity.
  - reflexivity.
Defined.

(** Two clusters named [a]: the context's cluster is the second one. *)
Example resolveConfig_duplicateClusters :
  exists kc, resolveConfig Sample.duplicateClusters = ([], inr kc)
             /\ kubeConfig.server kc = "https://s2:6443".
Proof. eexists. split; [vm_compute |]; reflexivity. Qed.

(** ** An empty user reference *)

(** What the code does on the two samples that C1 does not allow for. *)
Example resolveConfig_emptyNamedUser :
  resolveConfig Sample.emptyNamedUser =
    ([Sample.user "abc123" "" "" "" None],
     inr {| kubeConfig.basicAuth := None;
            kubeConfig.server := "http://host:1234";
            kubeConfig.token := "abc123";
            kubeConfig.tokenFile := "";
            kubeConfig.tlsConfig := None;
            kubeConfig.proxyURL := None |}).
Proof. vm_compute. reflexivity. Qed.

Example resolveConfig_noUserBadCA :
  resolveConfig Sample.noUserBadCA =
    ([], inl (Base64DecodeError CertificateAuthorityDataField "not-base64!"
                (base64.CorruptInput 3))).
Proof. vm_compute. reflexivity. Qed.

(** C1, as stated, fails, in two ways.  On [Sample.emptyNamedUser] the
    users hold an entry named by the empty string: line 194 finds it, the
    validator runs on it and its token is returned.  On [Sample.noUserBadCA]
    the CA data of the https cluster does not decode and the resolution
    fails.  The first statement refuted is the claim; the other two are
    the claim with one of the two situations excluded, which does not save
    it. *)
Lemma empty_user_ref_counterexample :
  ~ (forall (config : Config.t) (ctx : Context.t) (cl : Cluster.t),
        resolvedContext config = Some ctx ->
        resolvedCluster config = Some cl ->
        Cluster.Server cl <> "" ->
        Context.AuthInfo ctx = "" ->
        exists kc,
          resolveConfig config = ([], inr kc)
          /\ kubeConfig.basicAuth kc = None
          /\ kubeConfig.token kc = ""
          /\ kubeConfig.tokenFile kc = "")
  /\ ~ (forall (config : Config.t) (ctx : Context.t) (cl : Cluster.t),
        resolvedContext config = Some ctx ->
        resolvedCluster config = Some cl ->
        Cluster.Server cl <> "" ->
        Context.AuthInfo ctx = "" ->
        (String.prefix "https://" (Cluster.Server cl) = true ->
         Cluster.CertificateAuthorityData cl <> "" ->
         snd (base64.DecodeString (Cluster.CertificateAuthorityData cl)) = None) ->
        exists kc,
          resolveConfig config = ([], inr kc)
          /\ kubeConfig.basicAuth kc = None
          /\ kubeConfig.token kc = ""
          /\ kubeConfig.tokenFile kc = "")
  /\ ~ (forall (config : Config.t) (ctx : Context.t) (cl : Cluster.t),
        resolvedContext config = Some ctx ->
        resolvedCluster config = Some cl ->
        Cluster.Server cl <> "" ->
        Context.AuthInfo ctx = "" ->
        index (authInfosOf config) "" = None ->
        exists kc,
          resolveConfig config = ([], inr kc)
          /\ kubeConfig.basicAuth kc = None
          /\ kubeConfig.token kc = ""
          /\ kubeConfig.tokenFile kc = "").
Proof.
  split; [| split]; intros Hclaim.
  - destruct (Hclaim Sample.emptyNamedUser (Sample.context "c1" "")
                (Sample.cluster "http://host:1234" ""))
      as (kc & Hrun & _).
    + vm_compute. reflexivity.
    + vm_compute. reflexivity.
    + discriminate.
    + reflexivity.
    + rewrite resolveConfig_emptyNamedUser in Hrun. discriminate Hrun.
  - destruct (Hclaim Sample.emptyNamedUser (Sample.context "c1" "")
                (Sample.cluster "http://host:1234" ""))
      as (kc & Hrun & _).
    + vm_compute. reflexivity.
    + vm_compute. reflexivity.
    + discriminate.
    + reflexivity.
    + discriminate.
    + rewrite resolveConfig_emptyNamedUser in Hrun. discriminate Hrun.
  - destruct (Hclaim Sample.noUserBadCA (Sample.context "c1" "")
                (Sample.cluster "https://10.0.0.1:6443" "not-base64!"))
      as (kc & Hrun & _).
    + vm_compute. reflexivity.
    + vm_compute. reflexivity.
    + discriminate.
    + reflexivity.
    + vm_compute. reflexivity.
    + rewrite resolveConfig_noUserBadCA in Hrun. discriminate Hrun.
Qed.

(** C1, as the code has it: when the context and its cluster resolve, the
    server address is not empty, the context's user reference is empty, the
    user mapping holds no user under the empty name, and the CA data of an
    https cluster, if any, decodes, the resolution succeeds without
    credentials and the validator is not called. *)
Theorem empty_user_ref_yields_no_credentials
  (config : Config.t) (ctx : Context.t) (cl : Cluster.t) :
  resolvedContext config = Some ctx ->
  resolvedCluster config = Some cl ->
  Cluster.Server cl <> "" ->
  Context.AuthInfo ctx = "" ->
  index (authInfosOf config) "" = None ->
  (String.prefix "https://" (Cluster.Server cl) = true ->
   Cluster.CertificateAuthorityData cl <> "" ->
   snd (base64.DecodeString (Cluster.CertificateAuthorityData cl)) = None) ->
  exists kc,
    resolveConfig config = ([], inr kc)
    /\ kubeConfig.basicAuth kc = None
    /\ kubeConfig.token kc = ""
    /\ kubeConfig.tokenFile kc = "".
Proof.
  intros Hctx Hcl Hserver Hnouser Hnobody Hca.
  apply (resolvedCluster_lookup _ _ _ Hctx) in Hcl.
  enter_resolution Hctx Hcl Hserver.
  rewrite Hnouser, Hnobody. cbn [String.eqb negb andb]. eval_steps.
  destruct (String.prefix "https://" (Cluster.Server cl)) eqn:Hscheme.
  - destruct (0 <? len (Cluster.CertificateAuthorityData cl))%nat eqn:Hdata;
      cbn [andb].
    + apply len_pos in Hdata. specialize (Hca eq_refl Hdata).
      unfold decodeOrFail.
      destruct (base64.DecodeString (Cluster.CertificateAuthorityData cl))
        as [ca err].
      simpl in Hca. subst err. eval_steps.
      eexists. split; [reflexivity |]. repeat split.
    + eval_steps. eexists. split; [reflexivity |]. repeat split.
  - rewrite andb_false_r. eval_steps.
    eexists. split; [reflexivity |]. repeat split.
Qed.

Lemma empty_user_ref_yields_no_credentials_witness :
  exists kc,
    resolveConfig Sample.noUser = ([], inr kc)
    /\ kubeConfig.basicAuth kc = None
    /\ kubeConfig.token kc = ""
    /\ kubeConfig.tokenFile kc = "".
Proof.
  apply (empty_user_ref_yields_no_credentials Sample.noUser
           (Sample.context "c1" "")
           (Sample.cluster "https://10.0.0.1:6443" "Zm9v")).
  - vm_compute. reflexivity.
  - vm_compute. reflexivity.
  - discriminate.
  - reflexivity.
  - vm_compute. reflexivity.
  - intros _ _. reflexivity.
Defined.

(** ** Entries without a body *)

(** C10, as the code has it: an entry whose body is absent counts as
    missing.  When the entry of its name that the mapping keeps (the last
    one) has no body, selecting it as the current context fails with
    [ContextNotFound], referencing it as the context's cluster fails with
    [ClusterNotFound], and referencing it as the context's user fails with
    [AuthInfoNotFound] when its name is not the empty string. *)
Theorem absent_body_is_not_found (config : Config.t) :
  (forall l1 e l2,
      Config.Contexts config = l1 ++ e :: l2 ->
      (forall e', e' ∈ l2 -> ContextsItem.Name e' <> ContextsItem.Name e) ->
      ContextsItem.Context e = None ->
      Config.CurrentContext config = ContextsItem.Name e ->
      resolveConfig config = ([], inl (ContextNotFound (ContextsItem.Name e))))
  /\ (forall ctx l1 e l2,
      resolvedContext config = Some ctx ->
      Config.Clusters config = l1 ++ e :: l2 ->
      (forall e', e' ∈ l2 -> ClustersItem.Name e' <> ClustersItem.Name e) ->
      ClustersItem.Cluster e = None ->
      Context.Cluster ctx = ClustersItem.Name e ->
      resolveConfig config = ([], inl (ClusterNotFound (ClustersItem.Name e))))
  /\ (forall ctx cl l1 e l2,
      resolvedContext config = Some ctx ->
      resolvedCluster config = Some cl ->
      Cluster.Server cl <> "" ->
      Config.AuthInfos config = l1 ++ e :: l2 ->
      (forall e', e' ∈ l2 -> AuthInfosItem.Name e' <> AuthInfosItem.Name e) ->
      AuthInfosItem.AuthInfo e = None ->
      Context.AuthInfo ctx = AuthInfosItem.Name e ->
      AuthInfosItem.Name e <> "" ->
      resolveConfig config = ([], inl (AuthInfoNotFound (AuthInfosItem.Name e)))).
Proof.
  split; [| split].
  - intros l1 e l2 Hlist Hlast Hbody Hcurrent.
    assert (Hnil : index (contextsOf config) (ContextsItem.Name e) = None).
    { apply index_nil_body. unfold contextsOf. rewrite Hlist, <- Hbody.
      apply (foldl_insert_last ContextsItem.Name ContextsItem.Context).
      exact Hlast. }
    unfold resolveConfig. rewrite Hcurrent, Hnil. reflexivity.
  - intros ctx l1 e l2 Hctx Hlist Hlast Hbody Href.
    assert (Hnil : index (clusterInfosOf config) (ClustersItem.Name e) = None).
    { apply index_nil_body. unfold clusterInfosOf. rewrite Hlist, <- Hbody.
      apply (foldl_insert_last ClustersItem.Name ClustersItem.Cluster).
      exact Hlast. }
    unfold resolveConfig. unfold resolvedContext in Hctx.
    rewrite Hctx. eval_steps. rewrite Href, Hnil. reflexivity.
  - intros ctx cl l1 e l2 Hctx Hcl Hserver Hlist Hlast Hbody Href Hname.
    assert (Hnil : index (authInfosOf config) (AuthInfosItem.Name e) = None).
    { apply index_nil_body. unfold authInfosOf. rewrite Hlist, <- Hbody.
      apply (foldl_insert_last AuthInfosItem.Name AuthInfosItem.AuthInfo).
      exact Hlast. }
    apply (resolvedCluster_lookup _ _ _ Hctx) in Hcl.
    enter_resolution Hctx Hcl Hserver.
    rewrite Href, Hnil, (proj2 (string_eqb_empty _) Hname). reflexivity.
Qed.

Lemma absent_body_is_not_found_witness :
  resolveConfig Sample.contextWithoutBody = ([], inl (ContextNotFound "ctx1"))
  /\ resolveConfig Sample.clusterWithoutBody = ([], inl (ClusterNotFound "c1"))
  /\ resolveConfig Sample.userWithoutBody = ([], inl (AuthInfoNotFound "u1")).
Proof.
  split; [| split].
  - apply (proj1 (absent_body_is_not_found Sample.contextWithoutBody)
                 [] (Sample.contextEntry "ctx1" None) []).
    + reflexivity.
    + intros e' He'. inversion He'.
    + reflexivity.
    + reflexivity.
  - apply (proj1 (proj2 (absent_body_is_not_found Sample.clusterWithoutBody))
                 (Sample.context "c1" "") [] (Sample.clusterEntry "c1" None) []).
    + vm_compute. reflexivity.
    + reflexivity.
    + intros e' He'. inversion He'.
    + reflexivity.
    + reflexivity.
  - apply (proj2 (proj2 (absent_body_is_not_found Sample.userWithoutBody))
                 (Sample.context "c1" "u1") (Sample.cluster "http://host:1234" "")
                 [] (Sample.userEntry "u1" None) []).
    + vm_compute. reflexivity.
    + vm_compute. reflexivity.
    + discriminate.
    + reflexivity.
    + intros e' He'. inversion He'.
    + reflexivity.
    + reflexivity.
    + discriminate.
Defined.

(** C10, as stated, fails for a user entry named by the empty string: on
    [Sample.emptyNamedUserWithoutBody] the context's user field is the name
    of a body-less user entry, line 195 does not report the empty name, and
    the resolution succeeds. *)
Lemma absent_user_body_counterexample :
  ~ (forall (config : Config.t) (ctx : Context.t) (cl : Cluster.t)
            (l1 : list AuthInfosItem.t) (e : AuthInfosItem.t)
            (l2 : list AuthInfosItem.t),
        resolvedContext config = Some ctx ->
        resolvedCluster config = Some cl ->
        Cluster.Server cl <> "" ->
        Config.AuthInfos config = l1 ++ e :: l2 ->
        (forall e', e' ∈ l2 -> AuthInfosItem.Name e' <> AuthInfosItem.Name e) ->
        AuthInfosItem.AuthInfo e = None ->
        Context.AuthInfo ctx = AuthInfosItem.Name e ->
        snd (resolveConfig config)
          = inl (AuthInfoNotFound (AuthInfosItem.Name e))).
Proof.
  intros Hclaim.
  specialize (Hclaim Sample.emptyNamedUserWithoutBody
                (Sample.context "c1" "") (Sample.cluster "http://host:1234" "")
                [] (Sample.userEntry "" None) []).
  assert (Hrun : resolveConfig Sample.emptyNamedUserWithoutBody
                 = ([], inr {| kubeConfig.basicAuth := None;
                               kubeConfig.server := "http://host:1234";
                               kubeConfig.token := "";
                               kubeConfig.tokenFile := "";
                               kubeConfig.tlsConfig := None;
                               kubeConfig.proxyURL := None |}))
    by (vm_compute; reflexivity).
  rewrite Hrun in Hclaim.
  discriminate Hclaim.
  - vm_compute. reflexivity.
  - vm_compute. reflexivity.
  - discriminate.
  - reflexivity.
  - intros e' He'. inversion He'.
  - reflexivity.
  - reflexivity.
Qed.

(** An empty user reference is no reference: a body-less user entry named
    by the empty string is then ignored, like a missing one, and the
    validator does not run. *)
Lemma empty_named_user_without_body_is_ignored
  (config : Config.t) (ctx : Context.t) :
  resolvedContext config = Some ctx ->
  Context.AuthInfo ctx = "" ->
  authInfosOf config !! "" = Some None ->
  fst (resolveConfig config) = [].
Proof.
  intros Hctx Href Hbody. apply index_nil_body in Hbody.
  unfold resolveConfig. unfold resolvedContext in Hctx.
  rewrite Hctx. eval_steps.
  destruct (index (clusterInfosOf config) (Context.Cluster ctx)) as [cl|];
    [| reflexivity].
  eval_steps.
  destruct (len (Cluster.Server cl) =? 0)%nat; [reflexivity |].
  eval_steps.
  rewrite Href, Hbody. cbn [String.eqb negb andb]. eval_steps.
  unfold decodeOrFail.
  destruct (String.prefix "https://" (Cluster.Server cl));
    destruct (0 <? len (Cluster.CertificateAuthorityData cl))%nat;
    cbn [andb]; eval_steps; try reflexivity.
  destruct (base64.DecodeString (Cluster.CertificateAuthorityData cl))
    as [ca [e|]]; eval_steps; reflexivity.
Qed.

(** A body with zero-valued fields is something else: the cluster is found
    and its empty server address is what is reported. *)
Example zero_valued_cluster_is_found :
  resolveConfig
    (Sample.config [Sample.clusterEntry "c1" (Some (Sample.cluster "" ""))] []
                   [Sample.contextEntry "ctx1" (Some (Sample.context "c1" ""))]
                   "ctx1")
  = ([], inl (EmptyServerAddress "ctx1")).
Proof. vm_compute. reflexivity. Qed.


(** * Further properties of the resolution *)

(** ** The name-keyed mappings, continued *)

Section NameMapFacts.

Context {E V : Type} (name : E -> string) (body : E -> option V).

Let step (m : gmap string (option V)) (obj : E) : gmap string (option V) :=
  <[name obj := body obj]> m.

(** A name is bound after the loop when it was bound before or an entry
    has it. *)
Lemma foldl_insert_is_Some (l : list E) (m : gmap string (option V)) (k : string) :
  is_Some (foldl step m l !! k)
  <-> is_Some (m !! k) \/ exists e, e ∈ l /\ name e = k.
Proof.
  revert m. induction l as [|x l IH]; intros m; simpl.
  - split; [auto |]. intros [Hm | (e & He & _)]; [exact Hm | inversion He].
  - rewrite IH. unfold step. rewrite lookup_insert_is_Some. split.
    + intros [[Hx | [_ Hm]] | (e & He & Hk)].
      * right. exists x. split; [left | exact Hx].
      * left. exact Hm.
      * right. exists e. split; [right; exact He | exact Hk].
    + intros [Hm | (e & He & Hk)].
      * destruct (decide (name x = k)) as [Hx | Hx]; left; [left | right]; auto.
      * apply elem_of_cons in He as [-> | He].
        -- left. left. exact Hk.
        -- right. exists e. auto.
Qed.

(** With pairwise distinct names the order of the entries does not
    matter. *)
Lemma foldl_insert_permutation (l l' : list E) (m : gmap string (option V)) :
  NoDup (name <$> l) -> l ≡ₚ l' -> foldl step m l = foldl step m l'.
Proof.
  intros Hnodup Hperm. revert m Hnodup.
  induction Hperm as [| x l l' Hperm IH | x y l | l l' l'' Hperm1 IH1 Hperm2 IH2];
    intros m Hnodup; simpl.
  - reflexivity.
  - apply IH. simpl in Hnodup. apply NoDup_cons in Hnodup. tauto.
  - simpl in Hnodup. apply NoDup_cons in Hnodup as [Hxy _].
    unfold step. rewrite insert_insert_ne; [reflexivity |].
    intros Heq. apply Hxy. rewrite Heq. left.
  - rewrite IH1 by exact Hnodup. apply IH2.
    rewrite <- Hperm1. exact Hnodup.
Qed.

End NameMapFacts.

(** X1: each of the three mappings binds exactly the names that occur in
    its sequence. *)
Theorem name_maps_bind_the_names_of_the_entries (config : Config.t) (k : string) :
  (is_Some (clusterInfosOf config !! k)
   <-> exists e, e ∈ Config.Clusters config /\ ClustersItem.Name e = k)
  /\ (is_Some (authInfosOf config !! k)
      <-> exists e, e ∈ Config.AuthInfos config /\ AuthInfosItem.Name e = k)
  /\ (is_Some (contextsOf config !! k)
      <-> exists e, e ∈ Config.Contexts config /\ ContextsItem.Name e = k).
Proof.
  unfold clusterInfosOf, authInfosOf, contextsOf.
  split; [| split].
  - rewrite (foldl_insert_is_Some ClustersItem.Name ClustersItem.Cluster).
    rewrite lookup_empty. split; [| auto].
    intros [Hempty | He]; [destruct Hempty; discriminate | exact He].
  - rewrite (foldl_insert_is_Some AuthInfosItem.Name AuthInfosItem.AuthInfo).
    rewrite lookup_empty. split; [| auto].
    intros [Hempty | He]; [destruct Hempty; discriminate | exact He].
  - rewrite (foldl_insert_is_Some ContextsItem.Name ContextsItem.Context).
    rewrite lookup_empty. split; [| auto].
    intros [Hempty | He]; [destruct Hempty; discriminate | exact He].
Qed.

(** X2: when the names of the clusters, of the users and of the contexts
    are pairwise distinct, the order of the entries has no effect on the
    resolution. *)
Theorem entry_order_is_irrelevant_for_unique_names (config config' : Config.t) :
  Config.CurrentContext config = Config.CurrentContext config' ->
  NoDup (ClustersItem.Name <$> Config.Clusters config) ->
  Config.Clusters config ≡ₚ Config.Clusters config' ->
  NoDup (AuthInfosItem.Name <$> Config.AuthInfos config) ->
  Config.AuthInfos config ≡ₚ Config.AuthInfos config' ->
  NoDup (ContextsItem.Name <$> Config.Contexts config) ->
  Config.Contexts config ≡ₚ Config.Contexts config' ->
  resolveConfig config = resolveConfig config'.
Proof.
  intros Hcurrent Hc Hcp Hu Hup Hx Hxp.
  unfold resolveConfig, clusterInfosOf, authInfosOf, contextsOf.
  rewrite <- Hcurrent.
  rewrite (foldl_insert_permutation ClustersItem.Name ClustersItem.Cluster
             _ _ ∅ Hc Hcp).
  rewrite (foldl_insert_permutation AuthInfosItem.Name AuthInfosItem.AuthInfo
             _ _ ∅ Hu Hup).
  rewrite (foldl_insert_permutation ContextsItem.Name ContextsItem.Context
             _ _ ∅ Hx Hxp).
  reflexivity.
Qed.

Lemma entry_order_is_irrelevant_for_unique_names_witness :
  resolveConfig More.crowded = resolveConfig More.crowdedReordered.
Proof.
  apply entry_order_is_irrelevant_for_unique_names.
  - reflexivity.
  - apply (bool_decide_unpack _). vm_compute. reflexivity.
  - apply perm_swap.
  - apply (bool_decide_unpack _). vm_compute. reflexivity.
  - apply perm_swap.
  - apply (bool_decide_unpack _). vm_compute. reflexivity.
  - apply perm_swap.
Defined.

(** X3: the resolution reads the config through the current context's name
    and the three lookups only: entries that the current context does not
    reach, whatever they hold, have no effect. *)
Theorem resolution_reads_the_referenced_entries_only (config config' : Config.t) :
  Config.CurrentContext config = Config.CurrentContext config' ->
  resolvedContext config = resolvedContext config' ->
  resolvedCluster config = resolvedCluster config' ->
  resolvedAuthInfo config = resolvedAuthInfo config' ->
  resolveConfig config = resolveConfig config'.
Proof.
  unfold resolvedCluster, resolvedAuthInfo, resolvedContext, resolveConfig.
  intros <- <-.
  destruct (index (contextsOf config) (Config.CurrentContext config)) as [ctx|];
    [| reflexivity].
  eval_steps. intros <-.
  destruct (index (clusterInfosOf config) (Context.Cluster ctx)) as [cl|];
    [| reflexivity].
  eval_steps. intros <-. reflexivity.
Qed.

Lemma resolution_reads_the_referenced_entries_only_witness :
  resolveConfig More.crowded = resolveConfig Sample.endToEnd.
Proof.
  apply resolution_reads_the_referenced_entries_only.
  - reflexivity.
  - vm_compute. reflexivity.
  - vm_compute. reflexivity.
  - vm_compute. reflexivity.
Defined.

(** ** The failures of the lookups *)

(** Case analysis of a run of the resolution, for inversions. *)
Ltac invert_resolution :=
  unfold resolveConfig, resolvedAuthInfo, resolvedCluster, resolvedContext,
         bind, orFail, failIf, callValidate, decodeOrFail, ret, fail in *;
  repeat (case_match; simplify_eq/=).

(** X4: the resolution fails with [ContextNotFound], naming the current
    context, exactly when the context mapping has no body under that
    name; nothing else is looked at. *)
Theorem context_not_found_iff (config : Config.t) :
  resolvedContext config = None
  <-> resolveConfig config
      = ([], inl (ContextNotFound (Config.CurrentContext config))).
Proof.
  split.
  - unfold resolvedContext, resolveConfig. intros ->. reflexivity.
  - intros Hrun. destruct (resolvedContext config) as [ctx|] eqn:Hctx;
      [| reflexivity].
    exfalso. clear -Hrun Hctx. invert_resolution.
Qed.

(** X5: once the current context is found, the resolution fails with
    [ClusterNotFound], naming the context's cluster, exactly when the
    cluster mapping has no body under that name. *)
Theorem cluster_not_found_iff (config : Config.t) (ctx : Context.t) :
  resolvedContext config = Some ctx ->
  (resolvedCluster config = None
   <-> resolveConfig config = ([], inl (ClusterNotFound (Context.Cluster ctx)))).
Proof.
  intros Hctx. split.
  - unfold resolvedCluster. rewrite Hctx. intros Hcl.
    unfold resolveConfig. unfold resolvedContext in Hctx.
    rewrite Hctx. eval_steps. rewrite Hcl. reflexivity.
  - intros Hrun. destruct (resolvedCluster config) as [cl|] eqn:Hcl;
      [| reflexivity].
    exfalso. clear -Hrun Hctx Hcl. invert_resolution.
Qed.

Lemma cluster_not_found_iff_witness :
  resolvedCluster Sample.clusterWithoutBody = None
  <-> resolveConfig Sample.clusterWithoutBody = ([], inl (ClusterNotFound "c1")).
Proof.
  apply (cluster_not_found_iff Sample.clusterWithoutBody (Sample.context "c1" "")).
  vm_compute. reflexivity.
Defined.

(** X6: once the cluster is found, the resolution fails with
    [EmptyServerAddress], naming the current context, exactly when the
    server address is empty: the user, the scheme and the base64 fields are
    not looked at before. *)
Theorem empty_server_address_iff (config : Config.t) (cl : Cluster.t) :
  resolvedCluster config = Some cl ->
  (Cluster.Server cl = ""
   <-> resolveConfig config
       = ([], inl (EmptyServerAddress (Config.CurrentContext config)))).
Proof.
  intros Hcl. split.
  - intros Hserver. unfold resolvedCluster in Hcl.
    destruct (resolvedContext config) as [ctx|] eqn:Hctx; [| discriminate].
    unfold resolveConfig. unfold resolvedContext in Hctx.
    rewrite Hctx. eval_steps. rewrite Hcl. eval_steps.
    rewrite (proj2 (len_eqb_0 _) Hserver). reflexivity.
  - intros Hrun. destruct (len (Cluster.Server cl) =? 0)%nat eqn:Hserver.
    + apply len_eqb_0. exact Hserver.
    + exfalso. clear -Hrun Hcl Hserver. invert_resolution; congruence.
Qed.

Lemma empty_server_address_iff_witness :
  "" = ""
  <-> resolveConfig
        (Sample.config
           [Sample.clusterEntry "c1" (Some (Sample.cluster "" "not-base64!"))] []
           [Sample.contextEntry "ctx1" (Some (Sample.context "c1" "ghost"))]
           "ctx1")
      = ([], inl (EmptyServerAddress "ctx1")).
Proof.
  apply (empty_server_address_iff
           (Sample.config
              [Sample.clusterEntry "c1" (Some (Sample.cluster "" "not-base64!"))] []
              [Sample.contextEntry "ctx1" (Some (Sample.context "c1" "ghost"))]
              "ctx1")
           (Sample.cluster "" "not-base64!")).
  vm_compute. reflexivity.
Defined.

(** A named user that the mapping does not hold is reported. *)
Lemma auth_info_not_found_iff_aux
  (config : Config.t) (ctx : Context.t) (cl : Cluster.t) :
  resolvedContext config = Some ctx ->
  resolvedCluster config = Some cl ->
  Cluster.Server cl <> "" ->
  Context.AuthInfo ctx <> "" /\ resolvedAuthInfo config = None ->
  resolveConfig config = ([], inl (AuthInfoNotFound (Context.AuthInfo ctx))).
Proof.
  intros Hctx Hcl Hserver [Hname Hau].
  rewrite (resolvedAuthInfo_lookup _ _ Hctx) in Hau.
  apply (resolvedCluster_lookup _ _ _ Hctx) in Hcl.
  enter_resolution Hctx Hcl Hserver.
  rewrite Hau, (proj2 (string_eqb_empty _) Hname). reflexivity.
Qed.

(** X7: once the cluster is found and its server address is not empty, the
    resolution fails with [AuthInfoNotFound], naming the context's user,
    exactly when that name is not empty and the user mapping has no body
    under it. *)
Theorem auth_info_not_found_iff
  (config : Config.t) (ctx : Context.t) (cl : Cluster.t) :
  resolvedContext config = Some ctx ->
  resolvedCluster config = Some cl ->
  Cluster.Server cl <> "" ->
  (Context.AuthInfo ctx <> "" /\ resolvedAuthInfo config = None
   <-> resolveConfig config = ([], inl (AuthInfoNotFound (Context.AuthInfo ctx)))).
Proof.
  intros Hctx Hcl Hserver. split.
  - apply (auth_info_not_found_iff_aux _ _ _ Hctx Hcl Hserver).
  - intros Hrun.
    destruct (negb (Context.AuthInfo ctx =? "")
              && isNil (index (authInfosOf config) (Context.AuthInfo ctx)))
      eqn:Hcheck.
    + apply andb_prop in Hcheck as [Hname Hnil].
      apply negb_true_iff, string_eqb_empty in Hname.
      rewrite (resolvedAuthInfo_lookup _ _ Hctx).
      destruct (index (authInfosOf config) (Context.AuthInfo ctx));
        [discriminate | auto].
    + exfalso. clear -Hrun Hctx Hcl Hcheck. invert_resolution; congruence.
Qed.

Lemma auth_info_not_found_iff_witness :
  "u1" <> "" /\ resolvedAuthInfo Sample.userWithoutBody = None
  <-> resolveConfig Sample.userWithoutBody = ([], inl (AuthInfoNotFound "u1")).
Proof.
  apply (auth_info_not_found_iff Sample.userWithoutBody
           (Sample.context "c1" "u1") (Sample.cluster "http://host:1234" "")).
  - vm_compute. reflexivity.
  - vm_compute. reflexivity.
  - discriminate.
Defined.

(** ** The TLS bundle of an https cluster *)

Lemma https_prefix_nonempty (s : string) :
  String.prefix "https://" s = true -> s <> "".
Proof. intros Hp ->. discriminate Hp. Qed.

(** Turns the tests on lengths that a case analysis leaves among the
    hypotheses into equations on strings. *)
Ltac length_tests :=
  repeat match goal with
         | H : _ && true = _ |- _ => rewrite andb_true_r in H
         | H : (0 <? len _)%nat = true |- _ => apply len_pos in H
         | H : (0 <? len _)%nat = false |- _ => apply len_pos_false in H
         end.

(** Over https a success carries a TLS bundle with the settings of the
    cluster. *)
Lemma https_success_returns_the_cluster_tls_settings_aux
  (config : Config.t) (log : list AuthInfo.t) (kc : kubeConfig.t) (cl : Cluster.t) :
  resolveConfig config = (log, inr kc) ->
  resolvedCluster config = Some cl ->
  String.prefix "https://" (Cluster.Server cl) = true ->
  exists t,
    kubeConfig.tlsConfig kc = Some t
    /\ promauth.CAFile t = Cluster.CertificateAuthority cl
    /\ promauth.ServerName t = Cluster.TLSServerName cl
    /\ promauth.InsecureSkipVerify t = Cluster.InsecureSkipTLSVerify cl
    /\ (Cluster.CertificateAuthorityData cl = "" -> promauth.CA t = [])
    /\ (Cluster.CertificateAuthorityData cl <> "" ->
        base64.DecodeString (Cluster.CertificateAuthorityData cl)
        = (promauth.CA t, None)).
Proof.
  intros Hrun Hcl Hscheme.
  invert_resolution; try congruence; length_tests;
    eexists; (split; [reflexivity |]); simpl;
    repeat split; intros; congruence.
Qed.

(** X8: over https a successful resolution returns a TLS bundle whose CA
    file, server name and insecure flag are the cluster's, and whose CA
    bytes are the decoded CA data of the cluster, or empty when the cluster
    has none. *)
Theorem https_success_returns_the_cluster_tls_settings
  (config : Config.t) (log : list AuthInfo.t) (kc : kubeConfig.t) (cl : Cluster.t) :
  resolveConfig config = (log, inr kc) ->
  resolvedCluster config = Some cl ->
  String.prefix "https://" (Cluster.Server cl) = true ->
  exists t,
    kubeConfig.tlsConfig kc = Some t
    /\ promauth.CAFile t = Cluster.CertificateAuthority cl
    /\ promauth.ServerName t = Cluster.TLSServerName cl
    /\ promauth.InsecureSkipVerify t = Cluster.InsecureSkipTLSVerify cl
    /\ (Cluster.CertificateAuthorityData cl = "" -> promauth.CA t = [])
    /\ (Cluster.CertificateAuthorityData cl <> "" ->
        base64.DecodeString (Cluster.CertificateAuthorityData cl)
        = (promauth.CA t, None)).
Proof. apply https_success_returns_the_cluster_tls_settings_aux. Qed.

(** Over https the client material of a success is the resolved user's. *)
Lemma https_success_returns_the_client_material_aux
  (config : Config.t) (log : list AuthInfo.t) (kc : kubeConfig.t)
  (cl : Cluster.t) (t : promauth.TLSConfig) :
  resolveConfig config = (log, inr kc) ->
  resolvedCluster config = Some cl ->
  String.prefix "https://" (Cluster.Server cl) = true ->
  kubeConfig.tlsConfig kc = Some t ->
  match resolvedAuthInfo config with
  | Some au =>
      promauth.CertFile t = AuthInfo.ClientCertificate au
      /\ promauth.KeyFile t = AuthInfo.ClientKey au
      /\ (AuthInfo.ClientCertificateData au = "" -> promauth.Cert t = [])
      /\ (AuthInfo.ClientCertificateData au <> "" ->
          base64.DecodeString (AuthInfo.ClientCertificateData au)
          = (promauth.Cert t, None))
      /\ (AuthInfo.ClientKeyData au = "" -> promauth.Key t = [])
      /\ (AuthInfo.ClientKeyData au <> "" ->
          base64.DecodeString (AuthInfo.ClientKeyData au)
          = (promauth.Key t, None))
  | None =>
      promauth.CertFile t = "" /\ promauth.KeyFile t = ""
      /\ promauth.Cert t = [] /\ promauth.Key t = []
  end.
Proof.
  intros Hrun Hcl Hscheme Htls.
  invert_resolution; try congruence; length_tests;
    simpl; repeat split; intros; congruence.
Qed.

(** X9: over https a successful resolution with a resolved user puts the
    user's client certificate and key into the TLS bundle, the paths
    verbatim and the base64 data decoded; without a resolved user the
    bundle has no client material. *)
Theorem https_success_returns_the_client_material
  (config : Config.t) (log : list AuthInfo.t) (kc : kubeConfig.t)
  (cl : Cluster.t) (t : promauth.TLSConfig) :
  resolveConfig config = (log, inr kc) ->
  resolvedCluster config = Some cl ->
  String.prefix "https://" (Cluster.Server cl) = true ->
  kubeConfig.tlsConfig kc = Some t ->
  match resolvedAuthInfo config with
  | Some au =>
      promauth.CertFile t = AuthInfo.ClientCertificate au
      /\ promauth.KeyFile t = AuthInfo.ClientKey au
      /\ (AuthInfo.ClientCertificateData au = "" -> promauth.Cert t = [])
      /\ (AuthInfo.ClientCertificateData au <> "" ->
          base64.DecodeString (AuthInfo.ClientCertificateData au)
          = (promauth.Cert t, None))
      /\ (AuthInfo.ClientKeyData au = "" -> promauth.Key t = [])
      /\ (AuthInfo.ClientKeyData au <> "" ->
          base64.DecodeString (AuthInfo.ClientKeyData au)
          = (promauth.Key t, None))
  | None =>
      promauth.CertFile t = "" /\ promauth.KeyFile t = ""
      /\ promauth.Cert t = [] /\ promauth.Key t = []
  end.
Proof. apply https_success_returns_the_client_material_aux. Qed.

Lemma https_success_returns_the_client_material_witness :
  promauth.CertFile
    {| promauth.CA := ["f"%byte; "o"%byte; "o"%byte];
       promauth.CAFile := "";
       promauth.Cert := ["f"%byte; "o"%byte; "o"%byte];
       promauth.CertFile := "/etc/kube/client.crt";
       promauth.Key := ["b"%byte; "a"%byte; "r"%byte];
       promauth.KeyFile := "/etc/kube/client.key";
       promauth.ServerName := "";
       promauth.InsecureSkipVerify := false |}
  = "/etc/kube/client.crt"
  /\ base64.DecodeString "YmFy" = (["b"%byte; "a"%byte; "r"%byte], None).
Proof.
  pose proof (https_success_returns_the_client_material
                (More.https "Zm9v" (More.certUser "Zm9v" "YmFy"))
                [More.certUser "Zm9v" "YmFy"]
                {| kubeConfig.basicAuth := None;
                   kubeConfig.server := "https://10.0.0.1:6443";
                   kubeConfig.token := "";
                   kubeConfig.tokenFile := "/var/run/token";
                   kubeConfig.tlsConfig :=
                     Some {| promauth.CA := ["f"%byte; "o"%byte; "o"%byte];
                             promauth.CAFile := "";
                             promauth.Cert := ["f"%byte; "o"%byte; "o"%byte];
                             promauth.CertFile := "/etc/kube/client.crt";
                             promauth.Key := ["b"%byte; "a"%byte; "r"%byte];
                             promauth.KeyFile := "/etc/kube/client.key";
                             promauth.ServerName := "";
                             promauth.InsecureSkipVerify := false |};
                   kubeConfig.proxyURL := None |}
                (Sample.cluster "https://10.0.0.1:6443" "Zm9v")
                {| promauth.CA := ["f"%byte; "o"%byte; "o"%byte];
                   promauth.CAFile := "";
                   promauth.Cert := ["f"%byte; "o"%byte; "o"%byte];
                   promauth.CertFile := "/etc/kube/client.crt";
                   promauth.Key := ["b"%byte; "a"%byte; "r"%byte];
                   promauth.KeyFile := "/etc/kube/client.key";
                   promauth.ServerName := "";
                   promauth.InsecureSkipVerify := false |}) as Hmaterial.
  assert (Hau : resolvedAuthInfo (More.https "Zm9v" (More.certUser "Zm9v" "YmFy"))
                = Some (More.certUser "Zm9v" "YmFy"))
    by (vm_compute; reflexivity).
  rewrite Hau in Hmaterial.
  destruct Hmaterial as (Hcert & _ & _ & _ & _ & Hkey).
  - vm_compute. reflexivity.
  - vm_compute. reflexivity.
  - reflexivity.
  - reflexivity.
  - split; [exact Hcert |]. apply Hkey. discriminate.
Defined.

Lemma https_success_returns_the_cluster_tls_settings_witness :
  exists t,
    Some {| promauth.CA := ["f"%byte; "o"%byte; "o"%byte];
            promauth.CAFile := "";
            promauth.Cert := [];
            promauth.CertFile := "";
            promauth.Key := [];
            promauth.KeyFile := "";
            promauth.ServerName := "";
            promauth.InsecureSkipVerify := false |} = Some t
    /\ promauth.CAFile t = ""
    /\ promauth.ServerName t = ""
    /\ promauth.InsecureSkipVerify t = false
    /\ ("Zm9v" = "" -> promauth.CA t = [])
    /\ ("Zm9v" <> "" -> base64.DecodeString "Zm9v" = (promauth.CA t, None)).
Proof.
  apply (https_success_returns_the_cluster_tls_settings Sample.endToEnd
           [Sample.user "abc123" "" "" "" None]
           {| kubeConfig.basicAuth := None;
              kubeConfig.server := "https://10.0.0.1:6443";
              kubeConfig.token := "abc123";
              kubeConfig.tokenFile := "";
              kubeConfig.tlsConfig :=
                Some {| promauth.CA := ["f"%byte; "o"%byte; "o"%byte];
                        promauth.CAFile := "";
                        promauth.Cert := [];
                        promauth.CertFile := "";
                        promauth.Key := [];
                        promauth.KeyFile := "";
                        promauth.ServerName := "";
                        promauth.InsecureSkipVerify := false |};
              kubeConfig.proxyURL := None |}
           (Sample.cluster "https://10.0.0.1:6443" "Zm9v")).
  - vm_compute. reflexivity.
  - vm_compute. reflexivity.
  - reflexivity.
Defined.

(** ** The failures of the assembly *)

(** X10: over https, CA data that is not empty and does not decode fails
    the resolution with the [Base64DecodeError] of the CA data, before the
    validator is called, provided the user reference passed its check. *)
Theorem ca_decode_failure_precedes_validation
  (config : Config.t) (ctx : Context.t) (cl : Cluster.t)
  (e : base64.CorruptInputError) :
  resolvedContext config = Some ctx ->
  resolvedCluster config = Some cl ->
  String.prefix "https://" (Cluster.Server cl) = true ->
  Cluster.CertificateAuthorityData cl <> "" ->
  snd (base64.DecodeString (Cluster.CertificateAuthorityData cl)) = Some e ->
  Context.AuthInfo ctx = "" \/ resolvedAuthInfo config <> None ->
  resolveConfig config
  = ([], inl (Base64DecodeError CertificateAuthorityDataField
                (Cluster.CertificateAuthorityData cl) e)).
Proof.
  intros Hctx Hcl Hscheme Hdata Hdecode Huser.
  rewrite (resolvedAuthInfo_lookup _ _ Hctx) in Huser.
  apply (resolvedCluster_lookup _ _ _ Hctx) in Hcl.
  pose proof (https_prefix_nonempty _ Hscheme) as Hserver.
  enter_resolution Hctx Hcl Hserver.
  assert (Hcheck : negb (Context.AuthInfo ctx =? "")
                   && isNil (index (authInfosOf config) (Context.AuthInfo ctx))
                   = false).
  { destruct Huser as [-> | Hau]; [reflexivity |].
    destruct (index (authInfosOf config) (Context.AuthInfo ctx));
      [apply andb_false_r | congruence]. }
  rewrite Hcheck, Hscheme, (proj2 (len_pos _) Hdata). eval_steps.
  unfold decodeOrFail.
  destruct (base64.DecodeString (Cluster.CertificateAuthorityData cl)) as [ca err].
  simpl in Hdecode. subst err. reflexivity.
Qed.

Lemma ca_decode_failure_precedes_validation_witness :
  resolveConfig (More.https "not-base64!"
                   (Sample.user "" "" "hunter2" "" (Some Sample.execConfig)))
  = ([], inl (Base64DecodeError CertificateAuthorityDataField "not-base64!"
                (base64.CorruptInput 3))).
Proof.
  apply (ca_decode_failure_precedes_validation
           (More.https "not-base64!"
              (Sample.user "" "" "hunter2" "" (Some Sample.execConfig)))
           (Sample.context "c1" "u1")
           (Sample.cluster "https://10.0.0.1:6443" "not-base64!")).
  - vm_compute. reflexivity.
  - vm_compute. reflexivity.
  - reflexivity.
  - discriminate.
  - reflexivity.
  - right. vm_compute. discriminate.
Defined.

(** X11: a resolved user that the validator rejects fails the resolution
    with the validator's error and the name of the current context, after
    one call of the validator and before any client certificate or key is
    decoded, provided the CA data of an https cluster decoded. *)
Theorem validator_failure_fails_the_resolution
  (config : Config.t) (cl : Cluster.t) (au : AuthInfo.t) (err : validateError) :
  resolvedCluster config = Some cl ->
  Cluster.Server cl <> "" ->
  resolvedAuthInfo config = Some au ->
  AuthInfo.validate au = Some err ->
  (String.prefix "https://" (Cluster.Server cl) = true ->
   Cluster.CertificateAuthorityData cl <> "" ->
   snd (base64.DecodeString (Cluster.CertificateAuthorityData cl)) = None) ->
  resolveConfig config
  = ([au], inl (InvalidAuthConfig (Config.CurrentContext config) err)).
Proof.
  intros Hcl Hserver Hau Hinvalid Hca.
  unfold resolvedCluster in Hcl. unfold resolvedAuthInfo in Hau.
  destruct (resolvedContext config) as [ctx|] eqn:Hctx; [| discriminate].
  enter_resolution Hctx Hcl Hserver.
  rewrite Hau. cbn [isNil]. rewrite andb_false_r. eval_steps.
  unfold callValidate. rewrite Hinvalid.
  destruct (String.prefix "https://" (Cluster.Server cl)) eqn:Hscheme.
  - destruct (0 <? len (Cluster.CertificateAuthorityData cl))%nat eqn:Hdata;
      cbn [andb]; eval_steps; [| reflexivity].
    apply len_pos in Hdata. specialize (Hca eq_refl Hdata).
    unfold decodeOrFail.
    destruct (base64.DecodeString (Cluster.CertificateAuthorityData cl))
      as [ca e].
    simpl in Hca. subst e. reflexivity.
  - rewrite andb_false_r. reflexivity.
Qed.

Lemma validator_failure_fails_the_resolution_witness :
  resolveConfig (More.https "Zm9v"
                   (Sample.user "" "" "hunter2" "not-base64!" (Some Sample.execConfig)))
  = ([Sample.user "" "" "hunter2" "not-base64!" (Some Sample.execConfig)],
     inl (InvalidAuthConfig "ctx1" (UnsupportedAuthField "exec"))).
Proof.
  apply (validator_failure_fails_the_resolution
           (More.https "Zm9v"
              (Sample.user "" "" "hunter2" "not-base64!" (Some Sample.execConfig)))
           (Sample.cluster "https://10.0.0.1:6443" "Zm9v")).
  - vm_compute. reflexivity.
  - discriminate.
  - vm_compute. reflexivity.
  - reflexivity.
  - intros _ _. reflexivity.
Defined.

(** Lines 177-222 for an https cluster whose CA data, if any, decodes and
    whose resolved user validates: what is left is the assembly of the
    client material. *)
Ltac enter_client_material Hctx Hcl Hserver Hau Hvalid Hscheme Hca :=
  enter_resolution Hctx Hcl Hserver;
  rewrite Hau; cbn [isNil]; rewrite andb_false_r; eval_steps;
  unfold callValidate; rewrite Hvalid, Hscheme;
  unfold decodeOrFail;
  let Hcadata := fresh "Hcadata" in
  let ca := fresh "ca" in
  let caErr := fresh "caErr" in
  destruct (0 <? len (Cluster.CertificateAuthorityData _))%nat eqn:Hcadata;
  cbn [andb]; eval_steps;
  [ apply len_pos in Hcadata; specialize (Hca Hcadata);
    destruct (base64.DecodeString (Cluster.CertificateAuthorityData _))
      as [ca caErr];
    simpl in Hca; subst caErr; eval_steps
  | ].

(** X12: over https, client-certificate data of a validated user that is
    not empty and does not decode fails the resolution with the
    [Base64DecodeError] of the client-certificate data; the string the
    message quotes is the CA data of the cluster (line 230). *)
Theorem client_certificate_decode_failure
  (config : Config.t) (cl : Cluster.t) (au : AuthInfo.t)
  (e : base64.CorruptInputError) :
  resolvedCluster config = Some cl ->
  String.prefix "https://" (Cluster.Server cl) = true ->
  (Cluster.CertificateAuthorityData cl <> "" ->
   snd (base64.DecodeString (Cluster.CertificateAuthorityData cl)) = None) ->
  resolvedAuthInfo config = Some au ->
  AuthInfo.validate au = None ->
  AuthInfo.ClientCertificateData au <> "" ->
  snd (base64.DecodeString (AuthInfo.ClientCertificateData au)) = Some e ->
  resolveConfig config
  = ([au], inl (Base64DecodeError ClientCertificateDataField
                  (Cluster.CertificateAuthorityData cl) e)).
Proof.
  intros Hcl Hscheme Hca Hau Hvalid Hdata Hdecode.
  unfold resolvedCluster in Hcl. unfold resolvedAuthInfo in Hau.
  destruct (resolvedContext config) as [ctx|] eqn:Hctx; [| discriminate].
  pose proof (https_prefix_nonempty _ Hscheme) as Hserver.
  apply len_pos in Hdata.
  enter_client_material Hctx Hcl Hserver Hau Hvalid Hscheme Hca;
    rewrite Hdata;
    destruct (base64.DecodeString (AuthInfo.ClientCertificateData au))
      as [cert certErr];
    simpl in Hdecode; subst certErr; reflexivity.
Qed.

Lemma client_certificate_decode_failure_witness :
  resolveConfig (More.https "Zm9v" (More.certUser "not-base64!" "@@"))
  = ([More.certUser "not-base64!" "@@"],
     inl (Base64DecodeError ClientCertificateDataField "Zm9v"
            (base64.CorruptInput 3))).
Proof.
  apply (client_certificate_decode_failure
           (More.https "Zm9v" (More.certUser "not-base64!" "@@"))
           (Sample.cluster "https://10.0.0.1:6443" "Zm9v")).
  - vm_compute. reflexivity.
  - reflexivity.
  - intros _. reflexivity.
  - vm_compute. reflexivity.
  - reflexivity.
  - discriminate.
  - reflexivity.
Defined.

(** X13: over https, client-key data of a validated user that is not empty
    and does not decode fails the resolution with the [Base64DecodeError]
    of the client-key data, once the client-certificate data, if any,
    decoded; the string the message quotes is the CA data of the cluster
    (line 236). *)
Theorem client_key_decode_failure
  (config : Config.t) (cl : Cluster.t) (au : AuthInfo.t)
  (e : base64.CorruptInputError) :
  resolvedCluster config = Some cl ->
  String.prefix "https://" (Cluster.Server cl) = true ->
  (Cluster.CertificateAuthorityData cl <> "" ->
   snd (base64.DecodeString (Cluster.CertificateAuthorityData cl)) = None) ->
  resolvedAuthInfo config = Some au ->
  AuthInfo.validate au = None ->
  (AuthInfo.ClientCertificateData au <> "" ->
   snd (base64.DecodeString (AuthInfo.ClientCertificateData au)) = None) ->
  AuthInfo.ClientKeyData au <> "" ->
  snd (base64.DecodeString (AuthInfo.ClientKeyData au)) = Some e ->
  resolveConfig config
  = ([au], inl (Base64DecodeError ClientKeyDataField
                  (Cluster.CertificateAuthorityData cl) e)).
Proof.
  intros Hcl Hscheme Hca Hau Hvalid Hcert Hdata Hdecode.
  unfold resolvedCluster in Hcl. unfold resolvedAuthInfo in Hau.
  destruct (resolvedContext config) as [ctx|] eqn:Hctx; [| discriminate].
  pose proof (https_prefix_nonempty _ Hscheme) as Hserver.
  apply len_pos in Hdata.
  enter_client_material Hctx Hcl Hserver Hau Hvalid Hscheme Hca;
    (destruct (0 <? len (AuthInfo.ClientCertificateData au))%nat eqn:Hcertdata;
     eval_steps;
     [ apply len_pos in Hcertdata; specialize (Hcert Hcertdata);
       destruct (base64.DecodeString (AuthInfo.ClientCertificateData au))
         as [cert certErr];
       simpl in Hcert; subst certErr; eval_steps
     | ]);
    rewrite Hdata;
    destruct (base64.DecodeString (AuthInfo.ClientKeyData au)) as [key keyErr];
    simpl in Hdecode; subst keyErr; reflexivity.
Qed.

Lemma client_key_decode_failure_witness :
  resolveConfig (More.https "Zm9v" (More.certUser "Zm9v" "@@"))
  = ([More.certUser "Zm9v" "@@"],
     inl (Base64DecodeError ClientKeyDataField "Zm9v" (base64.CorruptInput 0))).
Proof.
  apply (client_key_decode_failure
           (More.https "Zm9v" (More.certUser "Zm9v" "@@"))
           (Sample.cluster "https://10.0.0.1:6443" "Zm9v")).
  - vm_compute. reflexivity.
  - reflexivity.
  - intros _. reflexivity.
  - vm_compute. reflexivity.
  - reflexivity.
  - intros _. reflexivity.
  - discriminate.
  - reflexivity.
Defined.

(** ** The validator and the credentials *)

(** X14: the validator is called at most once in a resolution, and only on
    the user the current context resolves to. *)
Theorem validator_runs_at_most_once_on_the_resolved_user (config : Config.t) :
  fst (resolveConfig config) = []
  \/ exists au, resolvedAuthInfo config = Some au
                /\ fst (resolveConfig config) = [au].
Proof.
  destruct (resolveConfig config) as [log r] eqn:Hrun. simpl.
  invert_resolution; auto; right; eexists; (split; [eassumption | reflexivity]).
Qed.

(** What [validate] accepts. *)
Lemma validate_None_inv (au : AuthInfo.t) :
  AuthInfo.validate au = None ->
  AuthInfo.Exec au = None
  /\ AuthInfo.ImpersonateUID au = ""
  /\ AuthInfo.Impersonate au = ""
  /\ AuthInfo.ImpersonateGroups au = []
  /\ AuthInfo.ImpersonateUserExtra au = [].
Proof.
  unfold AuthInfo.validate. intros Hv.
  destruct (AuthInfo.Exec au); [discriminate |]. simpl in Hv.
  destruct (0 <? len (AuthInfo.ImpersonateUID au))%nat eqn:Huid;
    [discriminate |].
  destruct (0 <? len (AuthInfo.Impersonate au))%nat eqn:Himp;
    [discriminate |].
  destruct (AuthInfo.ImpersonateGroups au); [| discriminate].
  destruct (AuthInfo.ImpersonateUserExtra au); [| discriminate].
  apply len_pos_false in Huid, Himp. auto.
Qed.

(** X15: a successful resolution never rests on a user with an exec
    descriptor or an impersonation field. *)
Theorem returned_user_has_no_unsupported_field
  (config : Config.t) (log : list AuthInfo.t) (kc : kubeConfig.t) (au : AuthInfo.t) :
  resolveConfig config = (log, inr kc) ->
  resolvedAuthInfo config = Some au ->
  AuthInfo.Exec au = None
  /\ AuthInfo.ImpersonateUID au = ""
  /\ AuthInfo.Impersonate au = ""
  /\ AuthInfo.ImpersonateGroups au = []
  /\ AuthInfo.ImpersonateUserExtra au = [].
Proof.
  intros Hrun Hau.
  destruct (resolveConfig_inr _ _ _ Hrun)
    as (ctx & cl & _ & _ & _ & _ & _ & _ & Huser).
  rewrite Hau in Huser. destruct Huser as (_ & Hvalid & _).
  apply validate_None_inv, Hvalid.
Qed.

Lemma returned_user_has_no_unsupported_field_witness :
  AuthInfo.Exec (Sample.user "abc123" "admin" "hunter2" "Zm9v" None) = None
  /\ AuthInfo.ImpersonateUID (Sample.user "abc123" "admin" "hunter2" "Zm9v" None) = ""
  /\ AuthInfo.Impersonate (Sample.user "abc123" "admin" "hunter2" "Zm9v" None) = ""
  /\ AuthInfo.ImpersonateGroups (Sample.user "abc123" "admin" "hunter2" "Zm9v" None) = []
  /\ AuthInfo.ImpersonateUserExtra (Sample.user "abc123" "admin" "hunter2" "Zm9v" None) = [].
Proof.
  apply (returned_user_has_no_unsupported_field Sample.plainHttp
           [Sample.user "abc123" "admin" "hunter2" "Zm9v" None]
           {| kubeConfig.basicAuth :=
                Some {| promauth.Username := "admin";
                        promauth.Password := promauth.NewSecret "hunter2" |};
              kubeConfig.server := "http://host:1234";
              kubeConfig.token := "abc123";
              kubeConfig.tokenFile := "";
              kubeConfig.tlsConfig := None;
              kubeConfig.proxyURL := None |}).
  - vm_compute. reflexivity.
  - vm_compute. reflexivity.
Defined.

(** X16: every credential of a successful resolution belongs to the
    resolved user, on which the validator ran: a token, a token file or a
    basic-auth pair in the output implies such a user. *)
Theorem returned_credentials_belong_to_a_validated_user
  (config : Config.t) (log : list AuthInfo.t) (kc : kubeConfig.t) :
  resolveConfig config = (log, inr kc) ->
  kubeConfig.token kc <> "" \/ kubeConfig.tokenFile kc <> ""
  \/ kubeConfig.basicAuth kc <> None ->
  exists au,
    resolvedAuthInfo config = Some au
    /\ log = [au]
    /\ AuthInfo.validate au = None
    /\ kubeConfig.token kc = AuthInfo.Token au
    /\ kubeConfig.tokenFile kc = AuthInfo.TokenFile au.
Proof.
  intros Hrun Hcred.
  destruct (resolveConfig_inr _ _ _ Hrun)
    as (ctx & cl & _ & _ & _ & _ & _ & _ & Huser).
  destruct (resolvedAuthInfo config) as [au|].
  - destruct Huser as (Hlog & Hvalid & Htoken & Hfile & _).
    exists au. auto.
  - destruct Huser as (_ & Htoken & Hfile & Hpair).
    destruct Hcred as [H | [H | H]]; contradiction.
Qed.

Lemma returned_credentials_belong_to_a_validated_user_witness :
  exists au,
    resolvedAuthInfo Sample.endToEnd = Some au
    /\ [Sample.user "abc123" "" "" "" None] = [au]
    /\ AuthInfo.validate au = None
    /\ "abc123" = AuthInfo.Token au
    /\ "" = AuthInfo.TokenFile au.
Proof.
  apply (returned_credentials_belong_to_a_validated_user Sample.endToEnd
           [Sample.user "abc123" "" "" "" None]
           {| kubeConfig.basicAuth := None;
              kubeConfig.server := "https://10.0.0.1:6443";
              kubeConfig.token := "abc123";
              kubeConfig.tokenFile := "";
              kubeConfig.tlsConfig :=
                Some {| promauth.CA := ["f"%byte; "o"%byte; "o"%byte];
                        promauth.CAFile := "";
                        promauth.Cert := [];
                        promauth.CertFile := "";
                        promauth.Key := [];
                        promauth.KeyFile := "";
                        promauth.ServerName := "";
                        promauth.InsecureSkipVerify := false |};
              kubeConfig.proxyURL := None |}).
  - vm_compute. reflexivity.
  - left. discriminate.
Defined.

(** ** Invariants of the output *)

(** X17: the server address of a returned [kubeConfig] is never empty, and
    the TLS bundle is present exactly when that address starts with
    [https://]. *)
Theorem returned_config_invariants
  (config : Config.t) (log : list AuthInfo.t) (kc : kubeConfig.t) :
  resolveConfig config = (log, inr kc) ->
  kubeConfig.server kc <> ""
  /\ (kubeConfig.tlsConfig kc <> None
      <-> String.prefix "https://" (kubeConfig.server kc) = true).
Proof.
  intros Hrun.
  destruct (resolveConfig_inr _ _ _ Hrun)
    as (ctx & cl & _ & Hcl & Hnonempty & Hserver & _ & Hinsecure & _).
  rewrite Hserver. split; [exact Hnonempty |].
  destruct (String.prefix "https://" (Cluster.Server cl)) eqn:Hscheme.
  - destruct (https_success_returns_the_cluster_tls_settings_aux
                _ _ _ _ Hrun Hcl Hscheme) as (t & -> & _).
    split; [reflexivity | discriminate].
  - rewrite (Hinsecure eq_refl). split; [congruence | discriminate].
Qed.

Lemma returned_config_invariants_witness :
  "http://host:1234" <> ""
  /\ (@None promauth.TLSConfig <> None
      <-> String.prefix "https://" "http://host:1234" = true).
Proof.
  apply (returned_config_invariants Sample.plainHttp
           [Sample.user "abc123" "admin" "hunter2" "Zm9v" None]
           {| kubeConfig.basicAuth :=
                Some {| promauth.Username := "admin";
                        promauth.Password := promauth.NewSecret "hunter2" |};
              kubeConfig.server := "http://host:1234";
              kubeConfig.token := "abc123";
              kubeConfig.tokenFile := "";
              kubeConfig.tlsConfig := None;
              kubeConfig.proxyURL := None |}).
  vm_compute. reflexivity.
Defined.

(** X18: the proxy URL of a successful resolution is the one of the
    cluster the current context references, or none when the cluster has
    none. *)
Theorem proxy_url_is_carried_verbatim
  (config : Config.t) (log : list AuthInfo.t) (kc : kubeConfig.t) :
  resolveConfig config = (log, inr kc) ->
  exists cl, resolvedCluster config = Some cl
             /\ kubeConfig.proxyURL kc = Cluster.ProxyURL cl.
Proof.
  intros Hrun.
  destruct (resolveConfig_inr _ _ _ Hrun)
    as (ctx & cl & _ & Hcl & _ & _ & Hproxy & _).
  exists cl. split; assumption.
Qed.

(** X19: when the server address is not https no base64 field is decoded:
    whatever the CA, client-certificate and client-key data are, the
    resolution does not fail with a [Base64DecodeError]. *)
Theorem insecure_server_never_fails_on_base64
  (config : Config.t) (cl : Cluster.t) (log : list AuthInfo.t)
  (field : base64Field) (quoted : string) (e : base64.CorruptInputError) :
  resolvedCluster config = Some cl ->
  String.prefix "https://" (Cluster.Server cl) = false ->
  resolveConfig config <> (log, inl (Base64DecodeError field quoted e)).
Proof.
  intros Hcl Hscheme Hrun.
  invert_resolution; try congruence;
    match goal with
    | H : _ && String.prefix _ _ = true |- _ =>
        rewrite Hscheme, andb_false_r in H; discriminate H
    end.
Qed.

Lemma proxy_url_is_carried_verbatim_witness :
  exists cl, resolvedCluster More.proxied = Some cl
             /\ Some {| proxy.text := "http://proxy:3128" |} = Cluster.ProxyURL cl.
Proof.
  apply (proxy_url_is_carried_verbatim More.proxied
           [More.certUser "not-base64!" "@@"]
           {| kubeConfig.basicAuth := None;
              kubeConfig.server := "http://host:1234";
              kubeConfig.token := "";
              kubeConfig.tokenFile := "/var/run/token";
              kubeConfig.tlsConfig := None;
              kubeConfig.proxyURL := Some {| proxy.text := "http://proxy:3128" |} |}).
  vm_compute. reflexivity.
Defined.

Lemma insecure_server_never_fails_on_base64_witness :
  resolveConfig More.proxied
  <> ([More.certUser "not-base64!" "@@"],
      inl (Base64DecodeError ClientCertificateDataField "not-base64!"
             (base64.CorruptInput 3))).
Proof.
  apply (insecure_server_never_fails_on_base64 More.proxied
           {| Cluster.Server := "http://host:1234";
              Cluster.TLSServerName := "kube.local";
              Cluster.InsecureSkipTLSVerify := true;
              Cluster.CertificateAuthority := "/etc/kube/ca.crt";
              Cluster.CertificateAuthorityData := "not-base64!";
              Cluster.ProxyURL := Some {| proxy.text := "http://proxy:3128" |} |}).
  - vm_compute. reflexivity.
  - reflexivity.
Defined.

(** ** When the resolution succeeds *)

(** One guarded decoding whose data, if any, decodes. *)
Ltac decode_step data Hok :=
  let Hd := fresh "Hd" in
  let bytes := fresh "bytes" in
  let err := fresh "err" in
  destruct (0 <? len data)%nat eqn:Hd; cbn [andb]; eval_steps;
  [ apply len_pos in Hd; specialize (Hok Hd);
    destruct (base64.DecodeString data) as [bytes err];
    simpl in Hok; subst err; eval_steps
  | ].

(** X20: the resolution succeeds exactly when the current context and its
    cluster are found, the server address is not empty, a named user is
    found, the resolved user passes the validator and, over https, every
    base64 field that is not empty decodes. *)
Theorem resolution_succeeds_iff (config : Config.t) :
  (exists log kc, resolveConfig config = (log, inr kc))
  <-> exists ctx cl,
        resolvedContext config = Some ctx
        /\ resolvedCluster config = Some cl
        /\ Cluster.Server cl <> ""
        /\ (Context.AuthInfo ctx <> "" -> resolvedAuthInfo config <> None)
        /\ (String.prefix "https://" (Cluster.Server cl) = true ->
            Cluster.CertificateAuthorityData cl <> "" ->
            snd (base64.DecodeString (Cluster.CertificateAuthorityData cl)) = None)
        /\ (forall au,
              resolvedAuthInfo config = Some au ->
              AuthInfo.validate au = None
              /\ (String.prefix "https://" (Cluster.Server cl) = true ->
                  (AuthInfo.ClientCertificateData au <> "" ->
                   snd (base64.DecodeString (AuthInfo.ClientCertificateData au))
                   = None)
                  /\ (AuthInfo.ClientKeyData au <> "" ->
                      snd (base64.DecodeString (AuthInfo.ClientKeyData au))
                      = None))).
Proof.
  split.
  - intros (log & kc & Hrun).
    destruct (resolveConfig_inr _ _ _ Hrun)
      as (ctx & cl & Hctx & Hcl & Hserver & _ & _ & _ & Huser).
    exists ctx, cl.
    split; [exact Hctx |]. split; [exact Hcl |]. split; [exact Hserver |].
    split; [| split].
    + intros Hname Hnone.
      assert (Hfail : resolveConfig config
                      = ([], inl (AuthInfoNotFound (Context.AuthInfo ctx))))
        by (apply (auth_info_not_found_iff_aux _ _ _ Hctx Hcl Hserver); auto).
      congruence.
    + intros Hscheme Hdata.
      destruct (https_success_returns_the_cluster_tls_settings_aux
                  _ _ _ _ Hrun Hcl Hscheme) as (t & _ & _ & _ & _ & _ & Hca).
      rewrite (Hca Hdata). reflexivity.
    + intros au Hau. rewrite Hau in Huser.
      destruct Huser as (_ & Hvalid & _). split; [exact Hvalid |].
      intros Hscheme.
      destruct (https_success_returns_the_cluster_tls_settings_aux
                  _ _ _ _ Hrun Hcl Hscheme) as (t & Htls & _).
      pose proof (https_success_returns_the_client_material_aux
                    _ _ _ _ _ Hrun Hcl Hscheme Htls) as Hmaterial.
      rewrite Hau in Hmaterial.
      destruct Hmaterial as (_ & _ & _ & Hcert & _ & Hkey).
      split; intros Hdata.
      * rewrite (Hcert Hdata). reflexivity.
      * rewrite (Hkey Hdata). reflexivity.
  - intros (ctx & cl & Hctx & Hcl & Hserver & Huser & Hca & Hau).
    rewrite (resolvedAuthInfo_lookup _ _ Hctx) in Huser.
    assert (Hau' : forall au,
               index (authInfosOf config) (Context.AuthInfo ctx) = Some au ->
               AuthInfo.validate au = None
               /\ (String.prefix "https://" (Cluster.Server cl) = true ->
                   (AuthInfo.ClientCertificateData au <> "" ->
                    snd (base64.DecodeString (AuthInfo.ClientCertificateData au))
                    = None)
                   /\ (AuthInfo.ClientKeyData au <> "" ->
                       snd (base64.DecodeString (AuthInfo.ClientKeyData au))
                       = None))).
    { intros au Hlookup. apply Hau.
      rewrite (resolvedAuthInfo_lookup _ _ Hctx). exact Hlookup. }
    clear Hau.
    apply (resolvedCluster_lookup _ _ _ Hctx) in Hcl.
    destruct (index (authInfosOf config) (Context.AuthInfo ctx))
      as [au|] eqn:Hlookup.
    + destruct (Hau' au eq_refl) as [Hvalid Hmaterial].
      destruct (String.prefix "https://" (Cluster.Server cl)) eqn:Hscheme.
      * specialize (Hca eq_refl). destruct (Hmaterial eq_refl) as [Hcert Hkey].
        enter_client_material Hctx Hcl Hserver Hlookup Hvalid Hscheme Hca;
          decode_step (AuthInfo.ClientCertificateData au) Hcert;
          decode_step (AuthInfo.ClientKeyData au) Hkey;
          eauto.
      * enter_resolution Hctx Hcl Hserver.
        rewrite Hlookup, Hscheme. cbn [isNil]. rewrite !andb_false_r.
        eval_steps. unfold callValidate. rewrite Hvalid. eval_steps. eauto.
    + assert (Hname : Context.AuthInfo ctx = "").
      { destruct (Context.AuthInfo ctx) eqn:Hn; [reflexivity |].
        exfalso. apply Huser; [discriminate | reflexivity]. }
      enter_resolution Hctx Hcl Hserver.
      rewrite Hname in Hlookup |- *. rewrite Hlookup.
      cbn [String.eqb negb andb]. eval_steps.
      destruct (String.prefix "https://" (Cluster.Server cl)) eqn:Hscheme.
      * specialize (Hca eq_refl). unfold decodeOrFail.
        decode_step (Cluster.CertificateAuthorityData cl) Hca; eauto.
      * rewrite andb_false_r. eval_steps. eauto.
Qed.

(** ** The stages of [buildConfig] *)

Section Stages.

Context {World SDConfig readError yamlError : Type}.
Variable KubeConfig : SDConfig -> string.
Variable ReadFileOrHTTP : World -> string -> readError + list byte.
Variable Unmarshal : list byte -> yamlError + Config.t.

(** X21: [buildConfig] has no partial result.  It returns a [kubeConfig]
    exactly when the source named by the [KubeConfig] field was read, the
    bytes were decoded and the decoded config resolved, and the result is
    the one of the resolution; a failure of the read or of the decoding is
    reported with that field as the path, the decoding not being tried on a
    failed read. *)
Theorem buildConfig_returns_iff_every_stage_succeeds (w : World) (sdc : SDConfig) :
  (forall kc,
      buildConfig KubeConfig ReadFileOrHTTP Unmarshal w sdc = inr kc
      <-> exists data config log,
            ReadFileOrHTTP w (KubeConfig sdc) = inr data
            /\ Unmarshal data = inr config
            /\ resolveConfig config = (log, inr kc))
  /\ (forall err,
      ReadFileOrHTTP w (KubeConfig sdc) = inl err ->
      buildConfig KubeConfig ReadFileOrHTTP Unmarshal w sdc
      = inl (CannotRead (KubeConfig sdc) err))
  /\ (forall data err,
      ReadFileOrHTTP w (KubeConfig sdc) = inr data ->
      Unmarshal data = inl err ->
      buildConfig KubeConfig ReadFileOrHTTP Unmarshal w sdc
      = inl (CannotParse (KubeConfig sdc) err)).
Proof.
  unfold buildConfig. split; [| split].
  - intros kc. split.
    + destruct (ReadFileOrHTTP w (KubeConfig sdc)) as [err|data];
        [discriminate |].
      destruct (Unmarshal data) as [err|config] eqn:Hdecode; [discriminate |].
      destruct (resolveConfig config) as [log [err|kc']] eqn:Hrun;
        simpl; [discriminate |].
      intros [= ->]. exists data, config, log. auto.
    + intros (data & config & log & -> & -> & ->). reflexivity.
  - intros err ->. reflexivity.
  - intros data err -> ->. reflexivity.
Qed.

End Stages.

Lemma buildConfig_returns_iff_every_stage_succeeds_witness :
  buildConfig (fun path : string => path) Sample.readFile Sample.unmarshal
    {["/etc/kube/a.yaml" := []]} "/etc/kube/a.yaml"
  = inl (CannotParse "/etc/kube/a.yaml" "empty document")
  /\ buildConfig (fun path : string => path) Sample.readFile Sample.unmarshal
       {["/etc/kube/a.yaml" := []]} "/etc/kube/b.yaml"
     = inl (CannotRead "/etc/kube/b.yaml" "no such file").
Proof.
  split.
  - apply (proj2 (proj2 (buildConfig_returns_iff_every_stage_succeeds
                           (fun path : string => path)
                           Sample.readFile Sample.unmarshal
                           {["/etc/kube/a.yaml" := []]} "/etc/kube/a.yaml"))
                 []).
    + vm_compute. reflexivity.
    + reflexivity.
  - apply (proj1 (proj2 (buildConfig_returns_iff_every_stage_succeeds
                           (fun path : string => path)
                           Sample.readFile Sample.unmarshal
                           {["/etc/kube/a.yaml" := []]} "/etc/kube/b.yaml"))).
    vm_compute. reflexivity.
Defined.
